(** * invenio-jsonschemas: schema service, URL mapping and HTTP view

    A shallow embedding of [invenio_jsonschemas/ext.py] and
    [invenio_jsonschemas/views.py].

    Python [str] is modelled as a byte string ([string]); Python values that
    travel through configuration and query parameters are [pyval]; raising
    an exception is the [Raise] constructor of [result].  The libraries the
    two modules call ([urllib.parse.urlsplit], [werkzeug.routing],
    [werkzeug.urls.url_quote], [functools.lru_cache], [MultiDict.get],
    [dict.setdefault]) are modelled by the functions of the same name below;
    what cannot be written down as a function of its arguments (the integer
    parser behind [type=int], IP-literal and NFKC validation of a netloc,
    [JsonRef.replace_refs], [jsonify]) is a field of the class [Externals]. *)

From Stdlib Require Import ZArith Ascii.
From stdpp Require Import base option gmap strings list fin_maps.

Local Open Scope stdpp_scope.

(** ** Python values and exceptions *)

Inductive pyval :=
  | PyNone
  | PyBool (b : bool)
  | PyInt (z : Z)
  | PyStr (s : string)
  | PyObj (id : nat).

#[global] Instance pyval_eq_dec : EqDecision pyval.
Proof. solve_decision. Defined.

(** [bool(v)] *)
Definition truthy (v : pyval) : bool :=
  match v with
  | PyNone => false
  | PyBool b => b
  | PyInt z => negb (z =? 0)%Z
  | PyStr s => negb (String.eqb s "")
  | PyObj _ => true
  end.

(** [a or b] *)
Definition py_or (a b : pyval) : pyval := if truthy a then a else b.

(** [a == b] on the values above ([True == 1], [False == 0]). *)
Definition py_num (v : pyval) : pyval :=
  match v with
  | PyBool b => PyInt (if b then 1 else 0)
  | _ => v
  end.

Definition py_eq (a b : pyval) : bool := bool_decide (py_num a = py_num b).

Inductive exn :=
  | JSONSchemaNotFound
  | HTTPException (code : nat)
  | JsonRefError
  | ValueError
  | TypeError
  | KeyError (key : string)
  | BuildError.

#[global] Instance exn_eq_dec : EqDecision exn.
Proof. solve_decision. Defined.

Inductive result (A : Type) :=
  | Ok (a : A)
  | Raise (e : exn).
Arguments Ok {A} a.
Arguments Raise {A} e.

#[global] Instance result_ret : MRet result := fun A a => Ok a.
#[global] Instance result_bind : MBind result := fun A B f m =>
  match m with
  | Ok a => f a
  | Raise e => Raise e
  end.

(** [abort(code)] of flask / werkzeug. *)
Definition abort {A} (code : nat) : result A := Raise (HTTPException code).

(** ** Strings *)

Module Str.

Fixpoint all (P : ascii → bool) (s : string) : bool :=
  match s with
  | EmptyString => true
  | String c s' => P c && all P s'
  end.

(** [c in s] *)
Fixpoint mem (c : ascii) (s : string) : bool :=
  match s with
  | EmptyString => false
  | String d s' => Ascii.eqb c d || mem c s'
  end.

(** [s.lstrip(chars)] *)
Fixpoint lstrip (P : ascii → bool) (s : string) : string :=
  match s with
  | EmptyString => EmptyString
  | String c s' => if P c then lstrip P s' else s
  end.

(** [s.replace(b, "")] for every one-character [b] with [P b] *)
Fixpoint remove (P : ascii → bool) (s : string) : string :=
  match s with
  | EmptyString => EmptyString
  | String c s' => if P c then remove P s' else String c (remove P s')
  end.

(** The part of [s] before the first character for which [P] holds, and
    the rest, which starts at that character (or is empty). *)
Fixpoint break (P : ascii → bool) (s : string) : string * string :=
  match s with
  | EmptyString => (EmptyString, EmptyString)
  | String c s' =>
      if P c then (EmptyString, s)
      else let '(a, b) := break P s' in (String c a, b)
  end.

(** [s[len(pre):]] when [s.startswith(pre)] *)
Fixpoint strip_prefix (pre s : string) : option string :=
  match pre, s with
  | EmptyString, _ => Some s
  | String c pre', String d s' =>
      if Ascii.eqb c d then strip_prefix pre' s' else None
  | String _ _, EmptyString => None
  end.

Definition startswith (pre s : string) : bool :=
  match strip_prefix pre s with Some _ => true | None => false end.

Definition is_upper (c : ascii) : bool :=
  let n := N_of_ascii c in (65 <=? n)%N && (n <=? 90)%N.
Definition is_lower (c : ascii) : bool :=
  let n := N_of_ascii c in (97 <=? n)%N && (n <=? 122)%N.
Definition is_digit (c : ascii) : bool :=
  let n := N_of_ascii c in (48 <=? n)%N && (n <=? 57)%N.
Definition is_alpha (c : ascii) : bool := is_upper c || is_lower c.
Definition is_ascii (c : ascii) : bool := (N_of_ascii c <? 128)%N.

Definition lower_char (c : ascii) : ascii :=
  if is_upper c then ascii_of_N (N_of_ascii c + 32) else c.

(** [s.lower()] (on the ASCII letters) *)
Fixpoint lower (s : string) : string :=
  match s with
  | EmptyString => EmptyString
  | String c s' => String (lower_char c) (lower s')
  end.

(** [s.split(sep, 1)] read as a pair: without the separator the second
    component is empty. *)
Definition split1 (sep : ascii) (s : string) : string * string :=
  match break (Ascii.eqb sep) s with
  | (a, String _ b) => (a, b)
  | (a, EmptyString) => (a, EmptyString)
  end.

End Str.

(** ** JSON documents, loaders and the effects of the service *)

#[warnings="-register-all"]
Inductive json :=
  | JNull
  | JBool (b : bool)
  | JNum (z : Z)
  | JStr (s : string)
  | JArr (items : list json)
  | JObj (fields : list (string * json)).

(** An instance of the configured loader class: called with a URL it
    returns the document or raises.  A loader is taken to answer by the
    URL alone; a class that reads the request context (the current user)
    is outside this model. *)
Definition loader := string → result json.

(** What a call does to the loader class, as a trace. *)
Inductive event :=
  | EvInstantiate
  | EvLoad (url : string).

#[global] Instance event_eq_dec : EqDecision event.
Proof. solve_decision. Defined.

(** Computations that raise and append to the trace. *)
Definition M (A : Type) : Type := list event * result A.

#[global] Instance M_ret : MRet M := fun A a => ([], Ok a).
#[global] Instance M_bind : MBind M := fun A B f m =>
  match m with
  | (t, Ok a) => let '(t', r) := f a in (t ++ t', r)
  | (t, Raise e) => (t, Raise e)
  end.

Definition tell (t : list event) : M unit := (t, Ok tt).
Definition lift {A} (r : result A) : M A := ([], r).

(** [loader_cls()] *)
Definition instantiate (cls : option loader) : M loader :=
  match cls with
  | Some l => _ ← tell [EvInstantiate]; mret l
  | None => lift (Raise TypeError)
  end.

(** [l(url)] *)
Definition call_loader (l : loader) (url : string) : M json :=
  _ ← tell [EvLoad url]; lift (l url).

(** [try: m except e: h] for one exception class. *)
Definition try_except {A} (m : M A) (catches : exn → bool) (h : M A) : M A :=
  match m with
  | (t, Raise e) => if catches e then let '(t', r) := h in (t ++ t', r) else m
  | _ => m
  end.

Definition is_load (e : event) : bool :=
  match e with EvLoad _ => true | EvInstantiate => false end.

(** How often a loader was called. *)
Fixpoint loads (t : list event) : nat :=
  match t with
  | [] => 0
  | e :: t' => (if is_load e then 1 else 0) + loads t'
  end.

(** ** Library functions taken as given *)

Class Externals := {
  (** [int(s)] on a [str]; [None] stands for [ValueError]. *)
  int_of_str : string → option Z;
  (** [_check_bracketed_netloc] (consulted when the netloc has both
      brackets) does not raise. *)
  check_bracketed_netloc : string → bool;
  (** [_checknetloc] (consulted for a netloc that is not ASCII) does not
      raise. *)
  checknetloc : string → bool;
  (** [JsonRef.replace_refs(schema, base_uri=..., loader=...)] *)
  JsonRef_replace_refs : json → string → option loader → M json;
  (** [jsonify(schema)]: the response body, or an exception raised while
      the document is serialised. *)
  jsonify : json → result string;
}.

(** ** [urllib.parse.urlsplit] *)

Record SplitResult := {
  scheme : string;
  netloc : string;
  path : string;
  query : string;
  fragment : string;
}.

Module Urllib.

(** [_WHATWG_C0_CONTROL_OR_SPACE] *)
Definition is_c0_control_or_space (c : ascii) : bool := (N_of_ascii c <=? 32)%N.

(** [_UNSAFE_URL_BYTES_TO_REMOVE] *)
Definition is_unsafe_url_byte (c : ascii) : bool :=
  Ascii.eqb c "009" || Ascii.eqb c "013" || Ascii.eqb c "010".

(** [scheme_chars] *)
Definition is_scheme_char (c : ascii) : bool :=
  Str.is_alpha c || Str.is_digit c || Str.mem c "+-.".

(** The delimiters [_splitnetloc] looks for. *)
Definition is_netloc_delim (c : ascii) : bool := Str.mem c "/?#".

(** The scheme, when the text before the first colon is one, and what
    follows the colon. *)
Definition split_scheme (url : string) : string * string :=
  match Str.break (Ascii.eqb ":") url with
  | (String c0 pre, String _ rest) =>
      if Str.is_ascii c0 && Str.is_alpha c0
         && Str.all is_scheme_char (String c0 pre)
      then (Str.lower (String c0 pre), rest)
      else (EmptyString, url)
  | _ => (EmptyString, url)
  end.

(** The netloc of a URL that starts with two slashes, and the rest;
    [ValueError] for brackets that do not pair up or do not hold an IP
    literal. *)
Definition split_netloc `{Externals} (url : string) : result (string * string) :=
  match Str.strip_prefix "//" url with
  | Some after =>
      let '(nl, rest) := Str.break is_netloc_delim after in
      let lb := Str.mem "[" nl in
      let rb := Str.mem "]" nl in
      if (lb && negb rb) || (rb && negb lb) then Raise ValueError
      else if lb && rb && negb (check_bracketed_netloc nl) then Raise ValueError
      else Ok (nl, rest)
  | None => Ok (EmptyString, url)
  end.

Definition urlsplit `{Externals} (url : string) : result SplitResult :=
  let url := Str.lstrip is_c0_control_or_space url in
  let url := Str.remove is_unsafe_url_byte url in
  let '(sch, url) := split_scheme url in
  '(nl, url) ← split_netloc url;
  let '(url, frag) := Str.split1 "#" url in
  let '(url, qry) := Str.split1 "?" url in
  if negb (String.eqb nl "") && negb (Str.all Str.is_ascii nl)
     && negb (checknetloc nl)
  then Raise ValueError
  else Ok {| scheme := sch; netloc := nl; path := url;
             query := qry; fragment := frag |}.

End Urllib.

(** ** [werkzeug.urls.url_quote] and [werkzeug.routing] *)

(** The routing of the werkzeug releases the module was written for: a
    rule is compiled to one anchored pattern over the text
    [host|path], a leaf rule has no trailing-slash group, and slashes are
    not merged.  The IDNA encoding of a server name that is not ASCII is
    left out: a netloc is compared as the bytes it is written in. *)
Module Werkzeug.

(** [_always_safe] *)
Definition always_safe (c : ascii) : bool :=
  Str.is_alpha c || Str.is_digit c || Str.mem c "_.-+".

Definition hex_digit (n : N) : ascii :=
  if (n <? 10)%N then ascii_of_N (48 + n) else ascii_of_N (55 + n).

(** [url_quote(s, safe=safe)]: every byte outside the safe set becomes
    a percent sign and two upper-case hexadecimal digits. *)
Fixpoint url_quote (safe : string) (s : string) : string :=
  match s with
  | EmptyString => EmptyString
  | String c s' =>
      if always_safe c || Str.mem c safe then String c (url_quote safe s')
      else
        let n := N_of_ascii c in
        String "%" (String (hex_digit (n / 16)) (String (hex_digit (n mod 16))
          (url_quote safe s')))
  end.

(** A rule made of static text followed by one [<path:...>] placeholder,
    bound to a host: [Rule(static + '<path:arg>', endpoint=..., host=...)].
    The static text and the host are taken literally: a prefix or host
    with angle brackets, which the library parses as placeholders (and
    refuses when malformed or repeated), is outside this model. *)
Record Rule := {
  rule_static : string;
  rule_arg : string;
  rule_endpoint : string;
  rule_host : string;
}.

(** [Rule.__init__] refuses a rule that does not start with a slash. *)
Definition mk_rule (static arg endpoint host : string) : result Rule :=
  if Str.startswith "/" static
  then Ok {| rule_static := static; rule_arg := arg;
             rule_endpoint := endpoint; rule_host := host |}
  else Raise ValueError.

(** [Map([rule], host_matching=True)] *)
Record Map := { map_rule : Rule }.

(** [Map.bind(server_name, url_scheme=...)]; the script name is ["/"]. *)
Record MapAdapter := {
  adapter_map : Map;
  server_name : string;
  url_scheme : string;
}.

Definition bind (m : Map) (server : string) (sch : string) : MapAdapter :=
  {| adapter_map := m; server_name := Str.lower server; url_scheme := sch |}.

(** [Rule.build]: the static parts quoted with [safe="/:|+"], the path
    value with the converter's [to_url]; host part and path are the two
    sides of the first bar. *)
Definition rule_build (r : Rule) (value : string) : string * string :=
  Str.split1 "|"
    (url_quote "/:|+" (rule_host r) +:+ "|" +:+
     url_quote "/:|+" (rule_static r) +:+ url_quote "/:" value).

(** [MapAdapter.build(endpoint, values={arg: value}, force_external=True)] *)
Definition build (a : MapAdapter) (endpoint : string) (value : string)
    : result string :=
  let r := map_rule (adapter_map a) in
  if String.eqb endpoint (rule_endpoint r) then
    let '(domain_part, p) := rule_build r value in
    Ok ((if String.eqb (url_scheme a) "" then "" else url_scheme a +:+ ":")
        +:+ "//" +:+ domain_part +:+ "/" +:+ Str.lstrip (Ascii.eqb "/") p)
  else Raise BuildError.

(** The tail of the path converter's pattern, a lazy [.*?] followed by
    [$]: no newline is consumed, and the end is the end of the string or
    sits before one final newline. *)
Fixpoint dot_star_dollar (s : string) : option string :=
  match s with
  | EmptyString => Some EmptyString
  | String c s' =>
      if Ascii.eqb c "010"
      then match s' with EmptyString => Some EmptyString | _ => None end
      else String c <$> dot_star_dollar s'
  end.

(** The pattern of the path converter, [[^/].*?], up to the end. *)
Definition path_converter (s : string) : option string :=
  match s with
  | EmptyString => None
  | String c s' =>
      if Ascii.eqb c "/" then None else String c <$> dot_star_dollar s'
  end.

(** [Rule.match]: the compiled pattern is the escaped host, a bar, the
    escaped static text and the converter's group, anchored at both
    ends. *)
Definition rule_match (r : Rule) (s : string) : option string :=
  s1 ← Str.strip_prefix (rule_host r) s;
  s2 ← Str.strip_prefix "|" s1;
  s3 ← Str.strip_prefix (rule_static r) s2;
  path_converter s3.

(** [MapAdapter.match(path_info)]: the endpoint and the arguments, or
    [NotFound]. *)
Definition match_ (a : MapAdapter) (path_info : string)
    : result (string * list (string * string)) :=
  let r := map_rule (adapter_map a) in
  let host := if String.eqb (server_name a) "" then "None" else server_name a in
  let p := if String.eqb path_info "" then ""
           else "/" +:+ Str.lstrip (Ascii.eqb "/") path_info in
  match rule_match r (host +:+ "|" +:+ p) with
  | Some v => Ok (rule_endpoint r, [(rule_arg r, v)])
  | None => Raise (HTTPException 404)
  end.

End Werkzeug.

(** [args.get(key)] on the arguments of a match. *)
Fixpoint assoc_get {A} (key : string) (l : list (string * A)) : option A :=
  match l with
  | [] => None
  | (k, v) :: l' => if String.eqb k key then Some v else assoc_get key l'
  end.

(** ** [InvenioJSONSchemasState] *)

(** The entries of [app.config] the state reads. *)
Record Config := {
  JSONSCHEMAS_ENDPOINT : string;
  JSONSCHEMAS_HOST : string;
  JSONSCHEMAS_URL_SCHEME : string;
  JSONSCHEMAS_LOADER_CLS : option loader;
  JSONSCHEMAS_RESOLVER_CLS : option (json → result json);
}.

Record InvenioJSONSchemasState := {
  app_config : Config;
  url_map : Werkzeug.Map;
}.

(** [__init__] *)
Definition InvenioJSONSchemasState_init (app : Config)
    : result InvenioJSONSchemasState :=
  r ← Werkzeug.mk_rule (JSONSCHEMAS_ENDPOINT app +:+ "/") "path" "schema"
        (JSONSCHEMAS_HOST app);
  mret {| app_config := app; url_map := {| Werkzeug.map_rule := r |} |}.

Definition loader_cls (self : InvenioJSONSchemasState) : option loader :=
  JSONSCHEMAS_LOADER_CLS (app_config self).

Definition resolver_cls (self : InvenioJSONSchemasState) : option (json → result json) :=
  JSONSCHEMAS_RESOLVER_CLS (app_config self).

Definition list_schemas (self : InvenioJSONSchemasState) : list string := [].

(** The exceptions [except HTTPException] catches. *)
Definition is_HTTPException (e : exn) : bool :=
  match e with HTTPException _ => true | _ => false end.

Definition url_to_path `{Externals} (self : InvenioJSONSchemasState) (url : string)
    : result (option string) :=
  parts ← Urllib.urlsplit url;
  match Werkzeug.match_ (Werkzeug.bind (url_map self) (netloc parts) "http")
          (path parts) with
  | Ok (ldr, args) =>
      let p := assoc_get "path" args in
      if String.eqb ldr "schema" then Ok p else Ok None
  | Raise e => if is_HTTPException e then Ok None else Raise e
  end.

Definition path_to_url (self : InvenioJSONSchemasState) (p : string)
    : result string :=
  Werkzeug.build
    (Werkzeug.bind (url_map self) (JSONSCHEMAS_HOST (app_config self))
       (JSONSCHEMAS_URL_SCHEME (app_config self)))
    "schema" p.

(** ** [functools.lru_cache] *)

Module Lru.
Section Cache.
Context {K V : Type} `{EqDecision K}.

(** The entries, most recently used first. *)
Record cache := { maxsize : nat; entries : list (K * V) }.

Definition empty (n : nat) : cache := {| maxsize := n; entries := [] |}.

Fixpoint find (k : K) (l : list (K * V)) : option V :=
  match l with
  | [] => None
  | (k', v) :: l' => if decide (k' = k) then Some v else find k l'
  end.

Fixpoint drop_key (k : K) (l : list (K * V)) : list (K * V) :=
  match l with
  | [] => []
  | (k', v) :: l' => if decide (k' = k) then drop_key k l' else (k', v) :: drop_key k l'
  end.

(** A call of the decorated function: a hit returns the stored value
    without running the body; a miss runs it and stores what it
    returns, dropping the least recently used entry beyond [maxsize];
    a body that raises stores nothing. *)
Definition call (c : cache) (k : K) (body : M V) : M (V * cache) :=
  match find k (entries c) with
  | Some v =>
      mret (v, {| maxsize := maxsize c; entries := (k, v) :: drop_key k (entries c) |})
  | None =>
      v ← body;
      mret (v, {| maxsize := maxsize c;
                  entries := take (maxsize c) ((k, v) :: entries c) |})
  end.
End Cache.
Arguments cache K V : clear implicits.
End Lru.

(** ** [InvenioJSONSchemasState.get_schema] *)

(** The request context: [request.base_url], [current_user] and
    [request.args]. *)
Record Request := {
  base_url : string;
  current_user : string;
  args : list (string * string);
}.

(** The arguments of [wrapped] as a cache key ([self] is the one state);
    keys are compared with [==]. *)
Definition cache_key : Type := string * pyval * pyval * string.

Definition make_key (p : string) (with_refs resolved : pyval) (user : string)
    : cache_key :=
  (p, py_num with_refs, py_num resolved, user).

Definition is_JSONSchemaNotFound (e : exn) : bool :=
  match e with JSONSchemaNotFound => true | _ => false end.

Definition is_JsonRefError (e : exn) : bool :=
  match e with JsonRefError => true | _ => false end.

(** The body of the inner function [wrapped]. *)
Definition wrapped `{Externals} (self : InvenioJSONSchemasState) (req : Request)
    (p : string) (with_refs resolved : pyval) (user : string) : M json :=
  schema ← try_except
    (l ← instantiate (loader_cls self);
     url ← lift (path_to_url self p);
     call_loader l url)
    is_JSONSchemaNotFound
    (lift (abort 404));
  schema ←
    (if truthy with_refs then
       l ← match loader_cls self with
           | Some _ => l ← instantiate (loader_cls self); mret (Some l)
           | None => mret None
           end;
       JsonRef_replace_refs schema (base_url req) l
     else mret schema);
  if truthy resolved then
    match resolver_cls self with
    | Some f => lift (f schema)
    | None => lift (Raise TypeError)
    end
  else mret schema.

(** [get_schema]: the decorated function is created by the call, with its
    own cache, and called once. *)
Definition get_schema `{Externals} (self : InvenioJSONSchemasState) (req : Request)
    (p : string) (with_refs resolved : pyval) : M json :=
  let user := current_user req in
  '(schema, _) ← Lru.call (Lru.empty 1000) (make_key p with_refs resolved user)
                   (wrapped self req p with_refs resolved user);
  mret schema.

(** What the specification describes for [getSchema]: one cache for the
    service, consulted first and filled after a successful resolution; a
    loader failure is propagated as it is; references are inlined when
    [withRefs] is set and the resolver is applied, to the inlined document
    or else to the raw one, when [resolved] is set. *)
Definition spec_getSchema `{Externals} (self : InvenioJSONSchemasState) (req : Request)
    (cache : Lru.cache cache_key json)
    (p : string) (with_refs resolved : pyval) (principal : string)
    : M (json * Lru.cache cache_key json) :=
  Lru.call cache (make_key p with_refs resolved principal)
    (l ← instantiate (loader_cls self);
     url ← lift (path_to_url self p);
     schema ← call_loader l url;
     schema ←
       (if truthy with_refs
        then JsonRef_replace_refs schema (base_url req) (Some l)
        else mret schema);
     if truthy resolved then
       match resolver_cls self with
       | Some f => lift (f schema)
       | None => lift (Raise TypeError)
       end
     else mret schema).

(** Two calls in a row, with the documents of both. *)
Definition twice {A} (m : M A) : M (A * A) := a ← m; b ← m; mret (a, b).

(** ** The blueprint view ([views.py]) *)

Module Views.

(** [request.args.get(key, default, type=int)]: the default when the key
    is absent or its first value is not an integer. *)
Definition args_get_int `{Externals} (a : list (string * string)) (key : string)
    (default : pyval) : pyval :=
  match assoc_get key a with
  | None => default
  | Some s =>
      match int_of_str s with
      | Some z => PyInt z
      | None => default
      end
  end.

(** [current_app.config.get(key)] *)
Definition config_get (cfg : gmap string pyval) (key : string) : pyval :=
  default PyNone (cfg !! key).

(** The two flags as the view computes them: [(resolved, with_refs)]. *)
Definition flags `{Externals} (cfg : gmap string pyval) (req : Request)
    : pyval * pyval :=
  let resolved :=
    args_get_int (args req) "resolved" (config_get cfg "JSONSCHEMAS_RESOLVE_SCHEMA") in
  let with_refs :=
    py_or (args_get_int (args req) "refs" (config_get cfg "JSONSCHEMAS_REPLACE_REFS"))
          resolved in
  (resolved, with_refs).

Definition get_schema `{Externals} (state : InvenioJSONSchemasState)
    (cfg : gmap string pyval) (req : Request) (schema_path : string) : M string :=
  let '(resolved, with_refs) := flags cfg req in
  schema ← get_schema state req schema_path with_refs resolved;
  try_except (lift (jsonify schema)) is_JsonRefError (lift (abort 404)).

End Views.

(** ** [InvenioJSONSchemas.init_config] *)

(** [d.setdefault(k, v)] *)
Definition setdefault (k : string) (v : pyval) (d : gmap string pyval)
    : gmap string pyval :=
  match d !! k with
  | Some _ => d
  | None => <[k := v]> d
  end.

(** One turn of the loop over [dir(config)]; [config] is the module of
    defaults, given by its attributes. *)
Definition init_config_step (config : list (string * pyval))
    (d : gmap string pyval) (k : string) : gmap string pyval :=
  if Str.startswith "JSONSCHEMAS_" k then
    match assoc_get k config with
    | Some v => setdefault k v d
    | None => d
    end
  else d.

(** [init_config]: the configuration afterwards, and the warnings logged
    (the host each one reports) unless the host entry is missing. *)
Definition init_config (config : list (string * pyval)) (d : gmap string pyval)
    : gmap string pyval * result (list pyval) :=
  let d' := foldl (init_config_step config) d (config.*1) in
  (d', match d' !! "JSONSCHEMAS_HOST" with
       | None => Raise (KeyError "JSONSCHEMAS_HOST")
       | Some host_setting =>
           if negb (truthy host_setting) || py_eq host_setting (PyStr "localhost")
           then Ok [host_setting] else Ok []
       end).

(** ** Inline mode of the reference resolver *)

Module ReferenceResolver.

Definition max_list (l : list nat) : nat := foldr max 0 l.

Fixpoint height (d : json) : nat :=
  match d with
  | JArr items => S (max_list (map height items))
  | JObj fields => S (max_list (map (λ kv, height kv.2) fields))
  | _ => 1
  end.

(** Modelled from the spec: a reference node is an object whose ["$ref"]
    is a string; this is the reference it stands for. *)
Definition as_ref (fields : list (string * json)) : option string :=
  match assoc_get "$ref" fields with
  | Some (JStr r) => Some r
  | _ => None
  end.

(** The results of the children, left to right: the first failure (or
    exhaustion) is the result. *)
Fixpoint collect {A} (l : list (option (result A))) : option (result (list A)) :=
  match l with
  | [] => Some (Ok [])
  | None :: _ => None
  | Some (Raise e) :: _ => Some (Raise e)
  | Some (Ok a) :: l' =>
      match collect l' with
      | Some (Ok r) => Some (Ok (a :: r))
      | other => other
      end
  end.

Definition map_res {A B} (f : A → B) (r : option (result A)) : option (result B) :=
  match r with
  | Some (Ok a) => Some (Ok (f a))
  | Some (Raise e) => Some (Raise e)
  | None => None
  end.

Section Inline.
(** [urljoin base ref]: the URL a reference denotes at a base URL. *)
Variable urljoin : string → string → string.
(** The documents (and parts of documents) the loader finds, by URL. *)
Variable store : gmap string json.

(** Modelled from the spec: inline mode of the reference resolver
    (section 4.3); the source only calls [JsonRef.replace_refs] of the
    jsonref library.  The tree is walked; a reference node is replaced
    by the document it refers to, resolved in turn with that URL added
    to the resolution path; a reference to a URL on the path stays as
    it is; a reference that cannot be fetched fails.  [None] means the
    fuel ran out. *)
Fixpoint inline (fuel : nat) (base : string) (visiting : list string) (doc : json)
    : option (result json) :=
  match fuel with
  | 0 => None
  | S n =>
      match doc with
      | JArr items =>
          map_res JArr (collect (map (inline n base visiting) items))
      | JObj fields =>
          match as_ref fields with
          | Some r =>
              let u := urljoin base r in
              if bool_decide (u ∈ visiting) then Some (Ok doc)
              else
                match store !! u with
                | Some d => inline n u (u :: visiting) d
                | None => Some (Raise JsonRefError)
                end
          | None =>
              map_res JObj
                (collect (map (λ kv, map_res (pair kv.1) (inline n base visiting kv.2))
                            fields))
          end
      | _ => Some (Ok doc)
      end
  end.

(** The greatest height of a stored document. *)
Definition store_height : nat :=
  max_list (map (λ kv, height kv.2) (map_to_list store)).

(** Fuel that suffices for a document. *)
Definition enough_fuel (doc : json) : nat :=
  height doc + size store * S store_height.

(** Modelled from the spec: inline-mode resolution of a document served
    at [base]. *)
Definition replace_refs (base : string) (doc : json) : option (result json) :=
  inline (enough_fuel doc) base [base] doc.
End Inline.

End ReferenceResolver.

(** ** Well-formed configurations *)

(** The characters the path converter's [to_url] leaves as they are. *)
Definition plain_char (c : ascii) : bool :=
  Werkzeug.always_safe c || Str.mem c "/:".

(** Lower-case host names, with an optional port. *)
Definition host_char (c : ascii) : bool :=
  Str.is_lower c || Str.is_digit c || Str.mem c ".-_:".

(** A URL scheme: a letter, then scheme characters. *)
Definition wf_scheme (s : string) : bool :=
  match s with
  | EmptyString => false
  | String c _ => Str.is_alpha c && Str.all Urllib.is_scheme_char s
  end.

Definition wf_host (s : string) : bool :=
  negb (String.eqb s "") && Str.all host_char s.

(** An endpoint prefix: empty, or one slash followed by plain text. *)
Definition wf_endpoint (s : string) : bool :=
  Str.all plain_char s &&
  match s with
  | EmptyString => true
  | String c (String d _) => Ascii.eqb c "/" && negb (Ascii.eqb d "/")
  | String _ EmptyString => false
  end.

Definition wf_config (app : Config) : bool :=
  wf_scheme (JSONSCHEMAS_URL_SCHEME app) && wf_host (JSONSCHEMAS_HOST app)
  && wf_endpoint (JSONSCHEMAS_ENDPOINT app).

(** ** Character classes of URLs *)

(** What [url_quote] writes: the characters it keeps, the percent sign and
    the hexadecimal digits. *)
Definition quoted_char (c : ascii) : bool := plain_char c || Ascii.eqb c "%".

(** The value of a hexadecimal digit as [url_quote] writes it. *)
Definition unhex (c : ascii) : N :=
  let n := N_of_ascii c in
  if (n <? 58)%N then (n - 48)%N else (n - 55)%N.

(** A host character in either case. *)
Definition netloc_char (c : ascii) : bool := host_char (Str.lower_char c).

(** Nothing, or a query string or fragment with its delimiter. *)
Definition is_query_or_fragment (tail : string) : bool :=
  match tail with
  | EmptyString => true
  | String c _ => Ascii.eqb c "?" || Ascii.eqb c "#"
  end.

(** The host entry that [init_config] reports on: the application's own,
    or else the default of the module. *)
Definition effective_host (config : list (string * pyval)) (d : gmap string pyval)
    : option pyval :=
  match d !! "JSONSCHEMAS_HOST" with
  | Some v => Some v
  | None => assoc_get "JSONSCHEMAS_HOST" config
  end.

(** ** A running example *)

Module Example.

Definition record_schema : json :=
  JObj [("type", JStr "object");
        ("properties", JObj [("title", JObj [("$ref", JStr "#/definitions/title")])]);
        ("definitions", JObj [("title", JObj [("type", JStr "string")])])].

Definition documents : loader := λ url,
  if String.eqb url "https://example.org/schemas/records/record-v1.0.0.json"
  then Ok record_schema
  else Raise JSONSchemaNotFound.

(** Integers in decimal, with an optional sign. *)
Fixpoint digits (acc : Z) (s : string) : option Z :=
  match s with
  | EmptyString => Some acc
  | String c s' =>
      if Str.is_digit c
      then digits (10 * acc + (Z.of_N (N_of_ascii c) - 48)) s'
      else None
  end.

Definition decimal (s : string) : option Z :=
  match s with
  | EmptyString => None
  | String "-" (String c s') => Z.opp <$> digits 0 (String c s')
  | String "+" (String c s') => digits 0 (String c s')
  | _ => digits 0 s
  end.

#[export] Instance externals : Externals := {|
  int_of_str := decimal;
  check_bracketed_netloc := λ _, true;
  checknetloc := λ _, true;
  JsonRef_replace_refs := λ doc _ _, mret doc;
  jsonify := λ _, Ok "{}";
|}.

Definition app : Config := {|
  JSONSCHEMAS_ENDPOINT := "/schemas";
  JSONSCHEMAS_HOST := "example.org";
  JSONSCHEMAS_URL_SCHEME := "https";
  JSONSCHEMAS_LOADER_CLS := Some documents;
  JSONSCHEMAS_RESOLVER_CLS := Some (λ doc, Ok doc);
|}.

Definition state : InvenioJSONSchemasState :=
  {| app_config := app;
     url_map := {| Werkzeug.map_rule :=
       {| Werkzeug.rule_static := "/schemas/"; Werkzeug.rule_arg := "path";
          Werkzeug.rule_endpoint := "schema"; Werkzeug.rule_host := "example.org" |} |} |}.

Definition anonymous (query : list (string * string)) : Request :=
  {| base_url := "https://example.org/schemas/records/record-v1.0.0.json";
     current_user := "anonymous"; args := query |}.

(** A document that refers to itself, and two that refer to each other. *)
Definition self_ref : json := JObj [("next", JObj [("$ref", JStr "urn:a")])].
Definition to_b : json := JObj [("b", JObj [("$ref", JStr "urn:b")])].
Definition to_a : json := JObj [("a", JObj [("$ref", JStr "urn:a")])].
Definition self_store : gmap string json := {[ "urn:a" := self_ref ]}.
Definition pair_store : gmap string json := {[ "urn:a" := to_b; "urn:b" := to_a ]}.
Definition absolute (base ref : string) : string := ref.


(** The running example with another loader class, and a serialiser that
    fails on references. *)
Definition state_with (cls : option loader) : InvenioJSONSchemasState :=
  {| app_config := {|
       JSONSCHEMAS_ENDPOINT := "/schemas";
       JSONSCHEMAS_HOST := "example.org";
       JSONSCHEMAS_URL_SCHEME := "https";
       JSONSCHEMAS_LOADER_CLS := cls;
       JSONSCHEMAS_RESOLVER_CLS := Some (λ doc, Ok doc) |};
     url_map := url_map state |}.

Definition unreadable : loader := λ _, Raise ValueError.

Definition externals_json_error : Externals := {|
  int_of_str := decimal;
  check_bracketed_netloc := λ _, true;
  checknetloc := λ _, true;
  JsonRef_replace_refs := λ doc _ _, mret doc;
  jsonify := λ _, Raise JsonRefError;
|}.

End Example.

(** * Properties *)

(** ** Facts about strings *)

Section StrFacts.
Implicit Types (P Q : ascii → bool) (s a b : string) (c : ascii).

Lemma app_cons_str c a b : String c a +:+ b = String c (a +:+ b).
Proof. reflexivity. Qed.

Lemma app_nil_str b : EmptyString +:+ b = b.
Proof. reflexivity. Qed.

Lemma app_assoc_str a b s : (a +:+ b) +:+ s = a +:+ (b +:+ s).
Proof.
  induction a as [|c a IH]; [done |].
  by rewrite !app_cons_str, IH.
Qed.

Lemma all_app P a b : Str.all P (a +:+ b) = Str.all P a && Str.all P b.
Proof.
  induction a as [|c a IH]; [done |].
  rewrite app_cons_str. simpl. by rewrite IH, andb_assoc.
Qed.

Lemma all_impl P Q s :
  (∀ c, P c = true → Q c = true) → Str.all P s = true → Str.all Q s = true.
Proof.
  intros HPQ. induction s as [|c s IH]; simpl; [done |].
  intros [Hc Hs]%andb_true_iff. rewrite (HPQ c Hc). simpl. by apply IH.
Qed.

Lemma remove_all Q P s :
  (∀ c, Q c = true → P c = false) → Str.all Q s = true → Str.remove P s = s.
Proof.
  intros HQP. induction s as [|c s IH]; simpl; [done |].
  intros [Hc Hs]%andb_true_iff. rewrite (HQP c Hc). by rewrite IH.
Qed.

Lemma break_app Q P a c b :
  (∀ d, Q d = true → P d = false) → Str.all Q a = true → P c = true →
  Str.break P (a +:+ String c b) = (a, String c b).
Proof.
  intros HQP. induction a as [|d a IH].
  - intros _ Hc. rewrite app_nil_str. simpl. by rewrite Hc.
  - intros [Hd Ha]%andb_true_iff Hc. rewrite app_cons_str. simpl.
    rewrite (HQP d Hd). by rewrite (IH Ha Hc).
Qed.

Lemma break_all Q P s :
  (∀ d, Q d = true → P d = false) → Str.all Q s = true →
  Str.break P s = (s, EmptyString).
Proof.
  intros HQP. induction s as [|d s IH]; simpl; [done |].
  intros [Hd Hs]%andb_true_iff. rewrite (HQP d Hd). by rewrite (IH Hs).
Qed.

Lemma strip_prefix_app a b : Str.strip_prefix a (a +:+ b) = Some b.
Proof.
  induction a as [|c a IH]; [done |].
  rewrite app_cons_str. simpl. by rewrite Ascii.eqb_refl.
Qed.

Lemma lstrip_stop P c s : P c = false → Str.lstrip P (String c s) = String c s.
Proof. intros Hc. simpl. by rewrite Hc. Qed.

Lemma lstrip_skip P c s : P c = true → Str.lstrip P (String c s) = Str.lstrip P s.
Proof. intros Hc. simpl. by rewrite Hc. Qed.

Lemma lower_all Q s :
  (∀ c, Q c = true → Str.is_upper c = false) → Str.all Q s = true →
  Str.lower s = s.
Proof.
  intros HQ. induction s as [|c s IH]; simpl; [done |].
  intros [Hc Hs]%andb_true_iff. unfold Str.lower_char.
  rewrite (HQ c Hc). by rewrite (IH Hs).
Qed.


Lemma url_quote_all safe s :
  Str.all (λ c, Werkzeug.always_safe c || Str.mem c safe) s = true →
  Werkzeug.url_quote safe s = s.
Proof.
  induction s as [|c s IH]; simpl; [done |].
  intros [Hc Hs]%andb_true_iff. rewrite Hc. by rewrite (IH Hs).
Qed.

End StrFacts.

(** ** Facts about character classes *)

Ltac char_cases :=
  intros [[] [] [] [] [] [] [] []]; vm_compute; intros; repeat split; congruence.

Lemma scheme_char_facts c :
  Urllib.is_scheme_char c = true →
  Ascii.eqb ":" c = false ∧ Urllib.is_unsafe_url_byte c = false.
Proof. revert c. char_cases. Qed.

Lemma alpha_facts c :
  Str.is_alpha c = true →
  Urllib.is_c0_control_or_space c = false ∧ Str.is_ascii c = true.
Proof. revert c. char_cases. Qed.

Lemma host_char_facts c :
  host_char c = true →
  Urllib.is_netloc_delim c = false ∧ Ascii.eqb "|" c = false
  ∧ Ascii.eqb "[" c = false ∧ Ascii.eqb "]" c = false
  ∧ Str.is_upper c = false ∧ Str.is_ascii c = true
  ∧ Urllib.is_unsafe_url_byte c = false
  ∧ Werkzeug.always_safe c || Str.mem c "/:|+" = true.
Proof. revert c. char_cases. Qed.

Lemma plain_char_facts c :
  plain_char c = true →
  Ascii.eqb "#" c = false ∧ Ascii.eqb "?" c = false
  ∧ Ascii.eqb c "010" = false
  ∧ Urllib.is_unsafe_url_byte c = false
  ∧ Werkzeug.always_safe c || Str.mem c "/:|+" = true.
Proof. revert c. char_cases. Qed.

Lemma mem_all Q d s :
  (∀ c, Q c = true → Ascii.eqb d c = false) → Str.all Q s = true →
  Str.mem d s = false.
Proof.
  intros HQ. induction s as [|c s IH]; simpl; [done |].
  intros [Hc Hs]%andb_true_iff. rewrite (HQ c Hc). by apply IH.
Qed.

(** ** [urlsplit] on the URLs the adapter builds *)


(** ** Building and matching *)

Lemma init_state_inv app st :
  InvenioJSONSchemasState_init app = Ok st →
  app_config st = app ∧
  url_map st = {| Werkzeug.map_rule :=
    {| Werkzeug.rule_static := JSONSCHEMAS_ENDPOINT app +:+ "/";
       Werkzeug.rule_arg := "path"; Werkzeug.rule_endpoint := "schema";
       Werkzeug.rule_host := JSONSCHEMAS_HOST app |} |}.
Proof.
  unfold InvenioJSONSchemasState_init, Werkzeug.mk_rule.
  destruct (Str.startswith "/" (JSONSCHEMAS_ENDPOINT app +:+ "/")); simpl; [|done].
  by intros [= <-].
Qed.

Lemma path_converter_inv p :
  Werkzeug.path_converter p = Some p →
  ∃ c r, p = String c r ∧ Ascii.eqb c "/" = false.
Proof.
  destruct p as [|c r]; simpl; [done |].
  destruct (Ascii.eqb c "/") eqn:Hc; [done |]. eauto.
Qed.


Lemma plain_is_static_safe s :
  Str.all plain_char s = true → Werkzeug.url_quote "/:|+" s = s.
Proof.
  intros Hs. apply url_quote_all. eapply all_impl; [|exact Hs].
  intros c Hc. by destruct (plain_char_facts c Hc) as (_ & _ & _ & _ & ?).
Qed.

Lemma host_is_static_safe s :
  Str.all host_char s = true → Werkzeug.url_quote "/:|+" s = s.
Proof.
  intros Hs. apply url_quote_all. eapply all_impl; [|exact Hs].
  intros c Hc. by destruct (host_char_facts c Hc) as (_ & _ & _ & _ & _ & _ & _ & ?).
Qed.


Lemma match_built app st c r p :
  InvenioJSONSchemasState_init app = Ok st → wf_config app = true →
  (JSONSCHEMAS_ENDPOINT app +:+ "/") +:+ p = String "/" (String c r) →
  Ascii.eqb "/" c = false →
  Werkzeug.path_converter p = Some p →
  Werkzeug.match_ (Werkzeug.bind (url_map st) (JSONSCHEMAS_HOST app) "http")
    ("/" +:+ String c r)
  = Ok ("schema", [("path", p)]).
Proof.
  intros Hinit Hwf Hshape Hc Hp.
  destruct (init_state_inv app st Hinit) as [Happ Hmap].
  apply andb_true_iff in Hwf as [[Hsch Hhost]%andb_true_iff Hend].
  apply andb_true_iff in Hhost as [Hne Hhost].
  unfold Werkzeug.match_, Werkzeug.bind, Werkzeug.rule_match.
  rewrite Hmap.
  cbn [Werkzeug.map_rule Werkzeug.adapter_map Werkzeug.server_name
       Werkzeug.rule_host Werkzeug.rule_static Werkzeug.rule_endpoint
       Werkzeug.rule_arg].
  rewrite (lower_all host_char _); [| |exact Hhost].
  2:{ intros d Hd. by destruct (host_char_facts d Hd) as (_ & _ & _ & _ & ? & _). }
  apply negb_true_iff in Hne. rewrite Hne.
  rewrite !app_cons_str, !app_nil_str. cbn [String.eqb].
  rewrite lstrip_skip, lstrip_stop by done.
  rewrite <- Hshape.
  rewrite strip_prefix_app. cbn [mbind option_bind Str.strip_prefix].
  rewrite Ascii.eqb_refl. cbn [mbind option_bind].
  rewrite strip_prefix_app. cbn [mbind option_bind].
  rewrite Hp. done.
Qed.


Lemma example_state_init :
  InvenioJSONSchemasState_init Example.app = Ok Example.state.
Proof. reflexivity. Qed.



(** C7. With endpoint prefix ["/schemas"], host ["example.org"] and URL
    scheme ["https"], [path_to_url "records/record-v1.0.0.json"] is
    ["https://example.org/schemas/records/record-v1.0.0.json"]. *)
Theorem path_to_url_example app st :
  JSONSCHEMAS_ENDPOINT app = "/schemas" →
  JSONSCHEMAS_HOST app = "example.org" →
  JSONSCHEMAS_URL_SCHEME app = "https" →
  InvenioJSONSchemasState_init app = Ok st →
  path_to_url st "records/record-v1.0.0.json"
  = Ok "https://example.org/schemas/records/record-v1.0.0.json".
Proof.
  intros He Hh Hs Hinit.
  destruct (init_state_inv app st Hinit) as [Happ Hmap].
  unfold path_to_url. rewrite Hmap, Happ, He, Hh, Hs. reflexivity.
Qed.

Lemma path_to_url_example_witness :
  path_to_url Example.state "records/record-v1.0.0.json"
  = Ok "https://example.org/schemas/records/record-v1.0.0.json".
Proof. apply (path_to_url_example Example.app); reflexivity. Defined.

(** C5 (the code at the failing input). A URL whose netloc opens a bracket
    that is never closed makes [urlsplit] raise [ValueError]; the call is
    outside the [try], so [url_to_path] raises instead of returning
    [None]. *)
Theorem url_to_path_raises_on_open_bracket `{Externals} st :
  url_to_path st "http://[::1/schemas/a.json" = Raise ValueError.
Proof. reflexivity. Qed.

(** A URL on another host is not matched, whatever its path. *)
Lemma url_to_path_other_host :
  url_to_path (H := Example.externals) Example.state
    "https://example.com/schemas/records/record-v1.0.0.json" = Ok None.
Proof. reflexivity. Qed.

(** The bound server name is lower-cased: the host of a URL is compared
    without regard to case. *)
Lemma url_to_path_host_case :
  url_to_path (H := Example.externals) Example.state
    "https://EXAMPLE.ORG/schemas/records/record-v1.0.0.json"
  = Ok (Some "records/record-v1.0.0.json").
Proof. reflexivity. Qed.

(** ** URLs that do not match *)

Lemma break_fst_all P s :
  Str.all (λ c, negb (P c)) (Str.break P s).1 = true.
Proof.
  induction s as [|c s IH]; simpl; [done |].
  destruct (P c) eqn:Hc; [done |].
  destruct (Str.break P s) as [a b]. simpl in *. by rewrite Hc.
Qed.

Lemma strip_prefix_Some a s r : Str.strip_prefix a s = Some r → s = a +:+ r.
Proof.
  revert s. induction a as [|c a IH]; intros s; simpl.
  - by intros [= ->].
  - destruct s as [|d s]; [done |].
    destruct (Ascii.eqb_spec c d) as [<-|_]; [|done].
    intros Hs. rewrite app_cons_str. by rewrite (IH _ Hs).
Qed.

Lemma app_bar_inj a b : a +:+ "|" = b +:+ "|" → a = b.
Proof.
  revert b. induction a as [|c a IH]; intros [|d b]; rewrite ?app_cons_str, ?app_nil_str.
  - done.
  - intros [= <- Hb]. by destruct b.
  - intros [= -> Ha]. by destruct a.
  - intros [= -> Hab]. by rewrite (IH b Hab).
Qed.

Lemma lower_char_slash c : Ascii.eqb "/" (Str.lower_char c) = Ascii.eqb "/" c.
Proof. revert c. intros [[] [] [] [] [] [] [] []]; reflexivity. Qed.

Lemma lower_no_slash s :
  Str.all (λ c, negb (Ascii.eqb "/" c)) s = true →
  Str.all (λ c, negb (Ascii.eqb "/" c)) (Str.lower s) = true.
Proof.
  induction s as [|c s IH]; [done |]. cbn [Str.all Str.lower].
  intros [Hc Hs]%andb_true_iff. rewrite lower_char_slash, Hc. by apply IH.
Qed.

(** The netloc [urlsplit] returns holds none of the delimiters. *)
Lemma urlsplit_netloc `{Externals} url parts :
  Urllib.urlsplit url = Ok parts →
  Str.all (λ c, negb (Urllib.is_netloc_delim c)) (netloc parts) = true.
Proof.
  unfold Urllib.urlsplit.
  destruct (Urllib.split_scheme _) as [sch rest].
  unfold Urllib.split_netloc.
  destruct (Str.strip_prefix "//" rest) as [after|]; simpl.
  - pose proof (break_fst_all Urllib.is_netloc_delim after) as Hnl.
    destruct (Str.break Urllib.is_netloc_delim after) as [nl rest'].
    simpl in Hnl.
    destruct (_ || _); [done |]. destruct (_ && negb _); [done |]. simpl.
    destruct (Str.split1 "#" rest') as [u frag].
    destruct (Str.split1 "?" u) as [u' qry].
    destruct (_ && _); [done |]. by intros [= <-].
  - destruct (Str.split1 "#" rest) as [u frag].
    destruct (Str.split1 "?" u) as [u' qry]. by intros [= <-].
Qed.

(** A URL that [urlsplit] parses never makes [url_to_path] raise. *)
Lemma url_to_path_parsed `{Externals} st url parts :
  Urllib.urlsplit url = Ok parts → ∃ r, url_to_path st url = Ok r.
Proof.
  intros Hparts. unfold url_to_path. rewrite Hparts. simpl.
  unfold Werkzeug.match_.
  destruct (Werkzeug.rule_match _ _); simpl; [|by eexists].
  destruct (String.eqb _ "schema"); by eexists.
Qed.

(** The rule only matches the configured host. *)
Lemma rule_match_host app st sn p v :
  InvenioJSONSchemasState_init app = Ok st →
  Str.all host_char (JSONSCHEMAS_HOST app) = true →
  Str.all (λ c, negb (Ascii.eqb "/" c)) sn = true →
  p = EmptyString ∨ (∃ q, p = String "/" q) →
  Werkzeug.rule_match (Werkzeug.map_rule (url_map st)) (sn +:+ "|" +:+ p) = Some v →
  sn = JSONSCHEMAS_HOST app.
Proof.
  intros Hinit Hhost Hsn Hp.
  pose proof Hinit as Hinit'.
  unfold InvenioJSONSchemasState_init, Werkzeug.mk_rule in Hinit'.
  destruct (Str.startswith "/" (JSONSCHEMAS_ENDPOINT app +:+ "/")) eqn:Hstart;
    [|done].
  destruct (init_state_inv app st Hinit) as [_ ->].
  unfold Werkzeug.rule_match. cbn [Werkzeug.map_rule Werkzeug.rule_host Werkzeug.rule_static].
  destruct (Str.strip_prefix (JSONSCHEMAS_HOST app) _) as [s1|] eqn:H1; [|done].
  cbn [mbind option_bind].
  destruct (Str.strip_prefix "|" s1) as [s2|] eqn:H2; [|done].
  cbn [mbind option_bind].
  destruct (Str.strip_prefix _ s2) as [s3|] eqn:H3; [|done].
  intros _.
  apply strip_prefix_Some in H1, H2, H3.
  unfold Str.startswith in Hstart.
  destruct (Str.strip_prefix "/" _) as [e|] eqn:He; [|done].
  apply strip_prefix_Some in He.
  rewrite He, app_assoc_str in H3. subst s2 s1.
  assert (Hbar : ∀ s, Str.all (λ c, negb (Ascii.eqb "/" c)) s = true →
            Str.all (λ c, negb (Ascii.eqb "/" c)) (s +:+ "|") = true).
  { intros s Hs. rewrite all_app, Hs. done. }
  assert (Hh : Str.all (λ c, negb (Ascii.eqb "/" c)) (JSONSCHEMAS_HOST app) = true).
  { eapply all_impl; [|exact Hhost]. intros c Hc.
    destruct (host_char_facts c Hc) as (Hd & _).
    unfold Urllib.is_netloc_delim in Hd. simpl in Hd.
    apply orb_false_iff in Hd as [Hd _]. rewrite Ascii.eqb_sym, Hd. done. }
  assert (Hleft : Str.break (Ascii.eqb "/") (sn +:+ "|" +:+ p)
                  = (JSONSCHEMAS_HOST app +:+ "|", "/" +:+ e +:+ s3)).
  { rewrite H1, <- (app_assoc_str _ "|").
    apply (break_app (λ c, negb (Ascii.eqb "/" c))); try done.
    - intros d Hd. by apply negb_true_iff in Hd.
    - by apply Hbar. }
  rewrite <- (app_assoc_str sn "|") in Hleft.
  destruct Hp as [->|[q ->]].
  - rewrite (break_all (λ c, negb (Ascii.eqb "/" c))) in Hleft.
    + done.
    + intros d Hd. by apply negb_true_iff in Hd.
    + rewrite all_app, (Hbar sn Hsn). done.
  - rewrite (break_app (λ c, negb (Ascii.eqb "/" c))) in Hleft; try done.
    + injection Hleft as Heq _. by apply app_bar_inj.
    + intros d Hd. by apply negb_true_iff in Hd.
    + by apply Hbar.
Qed.

(** X5. Host isolation: for a well-formed configuration, a parsed URL
    whose netloc is ASCII and, in lower case, is not the configured host
    gives [None], whatever its path. *)
Lemma url_to_path_other_netloc `{Externals} app st url parts :
  InvenioJSONSchemasState_init app = Ok st →
  wf_config app = true →
  Urllib.urlsplit url = Ok parts →
  Str.all Str.is_ascii (netloc parts) = true →
  Str.lower (netloc parts) ≠ JSONSCHEMAS_HOST app →
  url_to_path st url = Ok None.
Proof.
  intros Hinit [[_ Hwf]%andb_true_iff _]%andb_true_iff Hparts _ Hdiff.
  apply andb_true_iff in Hwf as [Hne Hhost].
  unfold url_to_path. rewrite Hparts. cbn [mbind result_bind].
  unfold Werkzeug.match_, Werkzeug.bind.
  cbn [Werkzeug.adapter_map Werkzeug.server_name].
  destruct (Werkzeug.rule_match _ _) as [v|] eqn:Hm; [|done].
  exfalso.
  assert (Hnl : Str.all (λ c, negb (Ascii.eqb "/" c)) (Str.lower (netloc parts)) = true).
  { apply lower_no_slash. eapply all_impl; [|exact (urlsplit_netloc _ _ Hparts)].
    intros c Hc. apply negb_true_iff in Hc. unfold Urllib.is_netloc_delim in Hc.
    simpl in Hc. apply orb_false_iff in Hc as [Hc _].
    rewrite Ascii.eqb_sym, Hc. done. }
  apply (rule_match_host app st) in Hm; try done.
  - destruct (String.eqb_spec (Str.lower (netloc parts)) "") as [Hempty|_];
      [|done].
    rewrite <- Hm in Hhost. done.
  - destruct (String.eqb (Str.lower (netloc parts)) ""); [done | exact Hnl].
  - destruct (String.eqb (path parts) ""); [by left | right].
    rewrite app_cons_str, app_nil_str. eauto.
Qed.

(** C10. [list_schemas] is the empty list for every state. *)
Theorem list_schemas_empty st : list_schemas st = [].
Proof. reflexivity. Qed.

(** ** The service *)

Lemma lru_call_empty {K V} `{EqDecision K} n (k : K) (body : M V) :
  Lru.call (Lru.empty n) k body
  = (v ← body; mret (v, {| Lru.maxsize := n; Lru.entries := take n [(k, v)] |})).
Proof. reflexivity. Qed.

Lemma get_schema_runs_body `{Externals} st req p with_refs resolved :
  get_schema st req p with_refs resolved
  = wrapped st req p with_refs resolved (current_user req).
Proof.
  unfold get_schema. rewrite lru_call_empty.
  destruct (wrapped st req p with_refs resolved (current_user req)) as [t [d|e]];
    simpl; [|done].
  by rewrite !app_nil_r.
Qed.

Lemma wrapped_head `{Externals} st req p with_refs resolved user t d :
  wrapped st req p with_refs resolved user = (t, Ok d) →
  ∃ l url t', loader_cls st = Some l ∧ path_to_url st p = Ok url
              ∧ t = EvInstantiate :: EvLoad url :: t'.
Proof.
  unfold wrapped.
  destruct (loader_cls st) as [l|] eqn:Hl; [|done].
  destruct (path_to_url st p) as [url|e] eqn:Hurl.
  2:{ destruct e; unfold abort; simpl; done. }
  simpl. destruct (l url) as [d0|e] eqn:Hload.
  2:{ destruct e; simpl; done. }
  simpl.
  match goal with |- (let '(_, _) := ?rest in _) = _ → _ => destruct rest as [t' r] end.
  intros [= <- ->]. by exists l, url, t'.
Qed.

(** C8. Every call of [get_schema] creates the memoising function anew:
    the call runs the body against an empty cache, so a call that returns a
    document has instantiated the loader class and called the loader for
    the URL of the path, whatever was served before. *)
Theorem get_schema_cache_is_per_call `{Externals} st req p with_refs resolved :
  get_schema st req p with_refs resolved
  = wrapped st req p with_refs resolved (current_user req)
  ∧ ∀ t d, get_schema st req p with_refs resolved = (t, Ok d) →
      ∃ l url t', loader_cls st = Some l ∧ path_to_url st p = Ok url
                  ∧ t = EvInstantiate :: EvLoad url :: t'
                  ∧ 1 ≤ loads t.
Proof.
  split.
  - apply get_schema_runs_body.
  - intros t d. rewrite get_schema_runs_body. intros Hw.
    destruct (wrapped_head _ _ _ _ _ _ _ _ Hw) as (l & url & t' & Hl & Hurl & ->).
    exists l, url, t'. repeat split; try done. simpl. lia.
Qed.

Lemma get_schema_cache_is_per_call_witness :
  ∃ l url t',
    loader_cls Example.state = Some l
    ∧ path_to_url Example.state "records/record-v1.0.0.json" = Ok url
    ∧ [EvInstantiate;
       EvLoad "https://example.org/schemas/records/record-v1.0.0.json"]
      = EvInstantiate :: EvLoad url :: t'
    ∧ 1 ≤ loads [EvInstantiate;
                 EvLoad "https://example.org/schemas/records/record-v1.0.0.json"].
Proof.
  apply (proj2 (get_schema_cache_is_per_call (H := Example.externals)
                  Example.state (Example.anonymous [])
                  "records/record-v1.0.0.json" (PyInt 0) (PyInt 0))
           _ Example.record_schema).
  reflexivity.
Defined.

(** C1 (the code at the failing input). Two identical calls of
    [get_schema] return equal documents, and the loader is called by each
    of them; with the one cache the specification describes, the second
    call is a hit and the loader is called once. *)
Theorem get_schema_second_call_loads_again :
  let url := "https://example.org/schemas/records/record-v1.0.0.json" in
  twice (get_schema (H := Example.externals) Example.state (Example.anonymous [])
           "records/record-v1.0.0.json" (PyInt 0) (PyInt 0))
  = ([EvInstantiate; EvLoad url; EvInstantiate; EvLoad url],
     Ok (Example.record_schema, Example.record_schema))
  ∧ ('(a, cache) ← spec_getSchema (H := Example.externals) Example.state
                     (Example.anonymous []) (Lru.empty 1000)
                     "records/record-v1.0.0.json" (PyInt 0) (PyInt 0) "anonymous";
     '(b, _) ← spec_getSchema (H := Example.externals) Example.state
                     (Example.anonymous []) cache
                     "records/record-v1.0.0.json" (PyInt 0) (PyInt 0) "anonymous";
     mret (a, b))
    = ([EvInstantiate; EvLoad url],
       Ok (Example.record_schema, Example.record_schema)).
Proof. split; reflexivity. Qed.

(** C3 (the code at the failing input). The loader raises
    [JSONSchemaNotFound] for the URL of the path, and [get_schema] does not
    let it through: it raises the 404 of [abort] instead, against its
    docstring. *)
Theorem get_schema_not_found_is_abort :
  Example.documents "https://example.org/schemas/missing.json"
    = Raise JSONSchemaNotFound
  ∧ get_schema (H := Example.externals) Example.state (Example.anonymous [])
      "missing.json" (PyInt 0) (PyInt 0)
    = ([EvInstantiate; EvLoad "https://example.org/schemas/missing.json"],
       Raise (HTTPException 404))
  ∧ (get_schema (H := Example.externals) Example.state (Example.anonymous [])
      "missing.json" (PyInt 0) (PyInt 0)).2
    ≠ Raise JSONSchemaNotFound.
Proof. repeat split; try reflexivity. vm_compute. discriminate. Qed.

(** Whenever the loader raises [JSONSchemaNotFound] for the URL of the
    path, [get_schema] aborts with 404 after that one loader call, and the
    view passes the 404 on without serialising anything. *)
Lemma get_schema_not_found `{Externals} st cfg req p with_refs resolved l url :
  loader_cls st = Some l →
  path_to_url st p = Ok url →
  l url = Raise JSONSchemaNotFound →
  get_schema st req p with_refs resolved
  = ([EvInstantiate; EvLoad url], Raise (HTTPException 404))
  ∧ Views.get_schema st cfg req p
    = ([EvInstantiate; EvLoad url], Raise (HTTPException 404)).
Proof.
  intros Hl Hurl Hload.
  assert (Hget : ∀ wr rs, get_schema st req p wr rs
                 = ([EvInstantiate; EvLoad url], Raise (HTTPException 404))).
  { intros wr rs. rewrite get_schema_runs_body. unfold wrapped.
    rewrite Hl, Hurl. simpl. rewrite Hload. reflexivity. }
  split; [apply Hget |].
  unfold Views.get_schema. destruct (Views.flags cfg req) as [rs wr].
  rewrite Hget. reflexivity.
Qed.

Lemma get_schema_not_found_witness :
  get_schema (H := Example.externals) Example.state (Example.anonymous [])
    "missing.json" (PyInt 1) (PyInt 0)
  = ([EvInstantiate; EvLoad "https://example.org/schemas/missing.json"],
     Raise (HTTPException 404))
  ∧ Views.get_schema (H := Example.externals) Example.state ∅
      (Example.anonymous []) "missing.json"
    = ([EvInstantiate; EvLoad "https://example.org/schemas/missing.json"],
       Raise (HTTPException 404)).
Proof.
  apply (get_schema_not_found (H := Example.externals) Example.state ∅
           (Example.anonymous []) "missing.json" (PyInt 1) (PyInt 0)
           Example.documents);
    reflexivity.
Defined.

(** ** The view's flags *)



(** ** [init_config] *)

Lemma assoc_get_None {A} k (l : list (string * A)) :
  k ∉ l.*1 → assoc_get k l = None.
Proof.
  induction l as [|[k' v] l IH]; simpl; [done |].
  intros Hk. apply not_elem_of_cons in Hk as [Hne Hk].
  destruct (String.eqb_spec k' k) as [->|_]; [done |]. by apply IH.
Qed.

Lemma init_config_step_lookup config d n k :
  init_config_step config d n !! k
  = match d !! k with
    | Some v => Some v
    | None =>
        if Str.startswith "JSONSCHEMAS_" k && bool_decide (k = n)
        then assoc_get k config else None
    end.
Proof.
  unfold init_config_step, setdefault.
  destruct (decide (k = n)) as [->|Hne].
  - rewrite bool_decide_eq_true_2, andb_true_r by done.
    destruct (Str.startswith "JSONSCHEMAS_" n); [|by destruct (d !! n)].
    destruct (assoc_get n config) as [v|]; [|by destruct (d !! n)].
    destruct (d !! n) as [w|] eqn:Hn; [by rewrite Hn |].
    by rewrite lookup_insert_eq.
  - rewrite bool_decide_eq_false_2, andb_false_r by done.
    assert (Hsame : ∀ v, <[n:=v]> d !! k = d !! k)
      by (intros v; by apply lookup_insert_ne).
    destruct (Str.startswith "JSONSCHEMAS_" n), (assoc_get n config), (d !! n);
      rewrite ?Hsame; by destruct (d !! k).
Qed.

Lemma foldl_init_config_lookup config names d k :
  foldl (init_config_step config) d names !! k
  = match d !! k with
    | Some v => Some v
    | None =>
        if Str.startswith "JSONSCHEMAS_" k && bool_decide (k ∈ names)
        then assoc_get k config else None
    end.
Proof.
  revert d. induction names as [|n names IH]; intros d; simpl.
  - rewrite andb_false_r. by destruct (d !! k).
  - rewrite IH, init_config_step_lookup.
    destruct (d !! k) as [v|]; [done |].
    destruct (Str.startswith "JSONSCHEMAS_" k); simpl; [|done].
    destruct (decide (k = n)) as [->|Hne].
    + rewrite bool_decide_eq_true_2 by done.
      rewrite (bool_decide_eq_true_2 (n ∈ n :: names))
        by (apply elem_of_cons; by left).
      destruct (assoc_get n config); [done |]. by destruct (bool_decide _).
    + rewrite bool_decide_eq_false_2 by done.
      assert (k ∈ n :: names ↔ k ∈ names) as Hiff
        by (rewrite elem_of_cons; split; [by intros [?|?] | by right]).
      by rewrite (bool_decide_ext _ _ Hiff).
Qed.

(** C9. After [init_config] every key that was present has the value it
    had; a key that was absent is filled, with the module default, exactly
    when it starts with [JSONSCHEMAS_] and the module has it. *)
Theorem init_config_keeps_present config d k :
  (init_config config d).1 !! k
  = match d !! k with
    | Some v => Some v
    | None =>
        if Str.startswith "JSONSCHEMAS_" k then assoc_get k config else None
    end.
Proof.
  unfold init_config. cbn [fst]. rewrite foldl_init_config_lookup.
  destruct (d !! k) as [v|]; [done |].
  destruct (Str.startswith "JSONSCHEMAS_" k); simpl; [|done].
  case_bool_decide as Hk; [done |]. by rewrite assoc_get_None.
Qed.

(** ** Inline mode terminates *)

Section InlineFacts.
Import ReferenceResolver.
Variable urljoin : string → string → string.
Variable store : gmap string json.












End InlineFacts.


(** A document that refers to itself resolves to itself. *)
Lemma replace_refs_self :
  ReferenceResolver.replace_refs Example.absolute Example.self_store "urn:a"
    Example.self_ref
  = Some (Ok Example.self_ref).
Proof. vm_compute. reflexivity. Qed.

(** Of two documents that refer to each other, the first is resolved with
    the second inlined once and the reference back left in place. *)
Lemma replace_refs_pair :
  ReferenceResolver.replace_refs Example.absolute Example.pair_store "urn:a"
    Example.to_b
  = Some (Ok (JObj [("b", JObj [("a", JObj [("$ref", JStr "urn:a")])])])).
Proof. vm_compute. reflexivity. Qed.

(** * Further properties of the URL mapping *)

Lemma app_nil_r_str s : s +:+ "" = s.
Proof. induction s as [|c s IH]; [done |]. by rewrite app_cons_str, IH. Qed.

Lemma remove_app P a b :
  Str.remove P (a +:+ b) = Str.remove P a +:+ Str.remove P b.
Proof.
  induction a as [|c a IH]; [done |].
  rewrite app_cons_str. simpl. destruct (P c); [done |].
  by rewrite app_cons_str, IH.
Qed.

Lemma break_app_gen Q P a b :
  (∀ d, Q d = true → P d = false) → Str.all Q a = true →
  Str.break P (a +:+ b) = (a +:+ (Str.break P b).1, (Str.break P b).2).
Proof.
  intros HQP. induction a as [|d a IH].
  - intros _. rewrite !app_nil_str. by destruct (Str.break P b).
  - intros [Hd Ha]%andb_true_iff. rewrite app_cons_str. simpl.
    rewrite (HQP d Hd), (IH Ha). done.
Qed.

Lemma split1_fst sep s : (Str.split1 sep s).1 = (Str.break (Ascii.eqb sep) s).1.
Proof. unfold Str.split1. by destruct (Str.break _ s) as [a [|c b]]. Qed.

Lemma quoted_char_facts c :
  quoted_char c = true →
  Ascii.eqb "#" c = false ∧ Ascii.eqb "?" c = false
  ∧ Ascii.eqb c "010" = false
  ∧ Urllib.is_unsafe_url_byte c = false.
Proof. revert c. char_cases. Qed.

Lemma netloc_char_facts c :
  netloc_char c = true →
  Urllib.is_netloc_delim c = false
  ∧ Ascii.eqb "[" c = false ∧ Ascii.eqb "]" c = false
  ∧ Str.is_ascii c = true
  ∧ Urllib.is_unsafe_url_byte c = false.
Proof. revert c. char_cases. Qed.

Lemma plain_is_quoted c : plain_char c = true → quoted_char c = true.
Proof. unfold quoted_char. by intros ->. Qed.

Lemma hex_digits_plain c :
  plain_char (Werkzeug.hex_digit (N_of_ascii c / 16)) = true
  ∧ plain_char (Werkzeug.hex_digit (N_of_ascii c mod 16)) = true.
Proof. revert c. intros [[] [] [] [] [] [] [] []]; vm_compute; done. Qed.

Lemma url_quote_quoted s : Str.all quoted_char (Werkzeug.url_quote "/:" s) = true.
Proof.
  induction s as [|c s IH]; [done |]. cbn [Werkzeug.url_quote].
  destruct (Werkzeug.always_safe c || Str.mem c "/:") eqn:Hc.
  - cbn [Str.all]. rewrite IH, andb_true_r. by apply plain_is_quoted.
  - destruct (hex_digits_plain c) as [Hhi Hlo]. cbn [Str.all].
    rewrite (plain_is_quoted _ Hhi), (plain_is_quoted _ Hlo), IH. done.
Qed.

Lemma dot_star_dollar_line s :
  Str.all (λ c, negb (Ascii.eqb c "010")) s = true →
  Werkzeug.dot_star_dollar s = Some s.
Proof.
  induction s as [|c s IH]; [done |]. cbn [Str.all Werkzeug.dot_star_dollar].
  intros [Hc Hs]%andb_true_iff. apply negb_true_iff in Hc.
  rewrite Hc, (IH Hs). done.
Qed.

Lemma quoted_no_newline s :
  Str.all quoted_char s = true →
  Str.all (λ c, negb (Ascii.eqb c "010")) s = true.
Proof.
  apply all_impl. intros c Hc.
  by destruct (quoted_char_facts c Hc) as (_ & _ & -> & _).
Qed.

(** The converter accepts the quoted form of a path that is not empty and
    does not start with a slash. *)
Lemma path_converter_quoted p :
  p ≠ EmptyString → Str.startswith "/" p = false →
  Werkzeug.path_converter (Werkzeug.url_quote "/:" p)
  = Some (Werkzeug.url_quote "/:" p)
  ∧ ∃ c r, Werkzeug.url_quote "/:" p = String c r ∧ Ascii.eqb c "/" = false.
Proof.
  intros Hne Hslash.
  destruct p as [|c r]; [done |].
  pose proof (quoted_no_newline _ (url_quote_quoted r)) as Hr.
  assert (Hc : Ascii.eqb c "/" = false).
  { unfold Str.startswith in Hslash. cbn [Str.strip_prefix] in Hslash.
    rewrite Ascii.eqb_sym. by destruct (Ascii.eqb "/" c). }
  cbn [Werkzeug.url_quote].
  destruct (Werkzeug.always_safe c || Str.mem c "/:").
  - split; [|by eauto]. cbn [Werkzeug.path_converter]. rewrite Hc.
    by rewrite (dot_star_dollar_line _ Hr).
  - split; [|by eauto]. cbn [Werkzeug.path_converter].
    change (Ascii.eqb "%" "/") with false. cbv iota.
    destruct (hex_digits_plain c) as [Hhi Hlo].
    rewrite dot_star_dollar_line; [done |]. cbn [Str.all].
    destruct (quoted_char_facts _ (plain_is_quoted _ Hhi)) as (_ & _ & -> & _).
    destruct (quoted_char_facts _ (plain_is_quoted _ Hlo)) as (_ & _ & -> & _).
    done.
Qed.

Lemma query_or_fragment_clean tail :
  is_query_or_fragment tail = true →
  is_query_or_fragment (Str.remove Urllib.is_unsafe_url_byte tail) = true.
Proof.
  destruct tail as [|c t]; [done |]. cbn [is_query_or_fragment Str.remove].
  intros [Hc|Hc]%orb_true_iff; apply Ascii.eqb_eq in Hc as ->; done.
Qed.

(** The path of a URL ends where a query string or fragment starts. *)
Lemma path_before_tail rest tail :
  Str.all quoted_char rest = true → is_query_or_fragment tail = true →
  (Str.split1 "?" (Str.split1 "#" (String "/" rest +:+ tail)).1).1
  = String "/" rest.
Proof.
  intros Hrest Htail.
  assert (Hpath : Str.all quoted_char (String "/" rest) = true) by done.
  assert (Hhash : ∀ d, quoted_char d = true → Ascii.eqb "#" d = false)
    by (intros d Hd; by destruct (quoted_char_facts d Hd)).
  assert (Hqm : ∀ d, quoted_char d = true → Ascii.eqb "?" d = false)
    by (intros d Hd; by destruct (quoted_char_facts d Hd) as (_ & ? & _)).
  rewrite !split1_fst.
  rewrite (break_app_gen quoted_char _ _ _ Hhash Hpath). cbn [fst].
  destruct tail as [|c t].
  - cbn [Str.break fst]. rewrite app_nil_r_str.
    by rewrite (break_all quoted_char _ _ Hqm Hpath).
  - cbn [is_query_or_fragment] in Htail.
    apply orb_true_iff in Htail as [Hc|Hc]; apply Ascii.eqb_eq in Hc as ->.
    + cbn [Str.break]. change (Ascii.eqb "#" "?") with false. cbv iota.
      destruct (Str.break (Ascii.eqb "#") t) as [t1 t2]. cbn [fst].
      by rewrite (break_app quoted_char _ _ "?" t1 Hqm Hpath).
    + cbn [Str.break]. change (Ascii.eqb "#" "#") with true. cbv iota.
      cbn [fst]. rewrite app_nil_r_str.
      by rewrite (break_all quoted_char _ _ Hqm Hpath).
Qed.

(** What [urlsplit] finds in a URL with a scheme, a host in any case, a
    quoted path and possibly a query string or fragment. *)
Lemma urlsplit_general `{Externals} sch nl rest tail :
  wf_scheme sch = true → Str.all netloc_char nl = true →
  Str.all quoted_char rest = true → is_query_or_fragment tail = true →
  ∃ parts,
    Urllib.urlsplit (sch +:+ ":" +:+ "//" +:+ nl +:+ (String "/" rest +:+ tail))
    = Ok parts
    ∧ netloc parts = nl ∧ path parts = String "/" rest.
Proof.
  intros Hsch Hnl Hrest Htail.
  destruct sch as [|c0 pre]; [done |].
  apply andb_true_iff in Hsch as [Hc0 Hsch].
  destruct (alpha_facts c0 Hc0) as [Hctl Hasc].
  pose (clean := λ c, negb (Urllib.is_unsafe_url_byte c)).
  assert (Hrem : ∀ s, Str.all clean s = true →
            Str.remove Urllib.is_unsafe_url_byte s = s).
  { intros s. apply remove_all. intros c Hc. by apply negb_true_iff in Hc. }
  assert (Str.all clean (String c0 pre) = true) as H1.
  { eapply all_impl; [|exact Hsch]. intros c Hc. unfold clean.
    destruct (scheme_char_facts c Hc) as [_ ->]. done. }
  assert (Str.all clean nl = true) as H2.
  { eapply all_impl; [|exact Hnl]. intros c Hc. unfold clean.
    destruct (netloc_char_facts c Hc) as (_ & _ & _ & _ & ->). done. }
  assert (Str.all quoted_char (String "/" rest) = true) as Hslash by done.
  assert (Str.all clean (String "/" rest) = true) as H3.
  { eapply all_impl; [|exact Hslash]. intros c Hc. unfold clean.
    destruct (quoted_char_facts c Hc) as (_ & _ & _ & ->). done. }
  unfold Urllib.urlsplit.
  rewrite (app_cons_str c0 pre), lstrip_stop by done.
  rewrite <- (app_cons_str c0 pre).
  rewrite !remove_app, (Hrem _ H1), (Hrem ":"), (Hrem "//"), (Hrem _ H2),
    (Hrem _ H3) by done.
  apply query_or_fragment_clean in Htail.
  set (tail' := Str.remove Urllib.is_unsafe_url_byte tail) in *.
  unfold Urllib.split_scheme.
  rewrite !(app_cons_str _ EmptyString), !app_nil_str.
  rewrite (break_app Urllib.is_scheme_char); [| |exact Hsch|done].
  2:{ intros d Hd. by destruct (scheme_char_facts d Hd). }
  rewrite Hasc, Hc0, Hsch. simpl andb. cbv iota.
  unfold Urllib.split_netloc.
  rewrite strip_prefix_app, !app_cons_str.
  rewrite (break_app netloc_char); [| |exact Hnl|done].
  2:{ intros d Hd. by destruct (netloc_char_facts d Hd). }
  rewrite (mem_all netloc_char "[" nl), (mem_all netloc_char "]" nl); try done.
  2:{ intros d Hd. by destruct (netloc_char_facts d Hd) as (_ & _ & ? & _). }
  2:{ intros d Hd. by destruct (netloc_char_facts d Hd) as (_ & ? & _). }
  cbn [andb orb negb mbind result_bind].
  pose proof (path_before_tail rest tail' Hrest Htail) as Hpath.
  rewrite app_cons_str in Hpath.
  destruct (Str.split1 "#" _) as [u frag]. cbn [fst] in Hpath.
  destruct (Str.split1 "?" u) as [u' qry]. cbn [fst] in Hpath. subst u'.
  assert (Hascii : Str.all Str.is_ascii nl = true).
  { eapply all_impl; [|exact Hnl]. intros c Hc.
    by destruct (netloc_char_facts c Hc) as (_ & _ & _ & ? & _). }
  rewrite Hascii, andb_false_r. cbn [andb].
  eexists. split; [done |]. done.
Qed.

Lemma static_shape_quoted e q c r :
  wf_endpoint e = true → Str.all quoted_char q = true →
  q = String c r → Ascii.eqb c "/" = false →
  ∃ c' r', (e +:+ "/") +:+ q = String "/" (String c' r')
           ∧ Ascii.eqb "/" c' = false
           ∧ Str.all quoted_char (String c' r') = true.
Proof.
  intros [He Hshape]%andb_true_iff Hq -> Hc.
  destruct e as [|a [|d e]]; [| done |].
  - exists c, r. by rewrite Ascii.eqb_sym.
  - apply andb_true_iff in Hshape as [Ha Hd].
    apply Ascii.eqb_eq in Ha as ->. apply negb_true_iff in Hd.
    exists d, ((e +:+ "/") +:+ String c r). split; [done |].
    rewrite Ascii.eqb_sym. split; [done |].
    assert (Str.all quoted_char (String d e) = true) as Hde.
    { eapply all_impl; [apply plain_is_quoted |].
      cbn [Str.all] in He. by apply andb_true_iff in He as [_ He]. }
    cbn [Str.all] in Hde. apply andb_true_iff in Hde as [Hd' He'].
    cbn [Str.all]. rewrite Hd', !all_app, He', Hq. done.
Qed.

Lemma netloc_of_host nl host :
  Str.lower nl = host → Str.all host_char host = true →
  Str.all netloc_char nl = true.
Proof.
  intros <-. induction nl as [|c nl IH]; [done |]. cbn [Str.lower Str.all].
  intros [Hc Hnl]%andb_true_iff. unfold netloc_char at 1. rewrite Hc.
  by apply IH.
Qed.

(** The URL the state builds, given the shape of the quoted path behind
    the prefix. *)
Lemma path_to_url_shape app st p c r :
  InvenioJSONSchemasState_init app = Ok st → wf_config app = true →
  (JSONSCHEMAS_ENDPOINT app +:+ "/") +:+ Werkzeug.url_quote "/:" p
  = String "/" (String c r) →
  Ascii.eqb "/" c = false →
  path_to_url st p
  = Ok (JSONSCHEMAS_URL_SCHEME app +:+ ":" +:+ "//" +:+ JSONSCHEMAS_HOST app
        +:+ "/" +:+ String c r).
Proof.
  intros Hinit Hwf Hshape Hc.
  destruct (init_state_inv app st Hinit) as [Happ Hmap].
  apply andb_true_iff in Hwf as [[Hsch Hhost]%andb_true_iff Hend].
  apply andb_true_iff in Hhost as [Hne Hhost].
  apply andb_true_iff in Hend as [Hend _].
  unfold path_to_url, Werkzeug.build, Werkzeug.bind, Werkzeug.rule_build.
  rewrite Hmap, Happ. simpl.
  rewrite (host_is_static_safe _ Hhost).
  rewrite (plain_is_static_safe (JSONSCHEMAS_ENDPOINT app +:+ "/")).
  2:{ rewrite all_app, Hend. done. }
  unfold Str.split1.
  rewrite !(app_cons_str _ EmptyString), !app_nil_str.
  rewrite (break_app host_char); [| |exact Hhost|done].
  2:{ intros d Hd. by destruct (host_char_facts d Hd) as (_ & ? & _). }
  rewrite Hshape, lstrip_skip, lstrip_stop by done.
  destruct (JSONSCHEMAS_URL_SCHEME app) as [|c0 pre] eqn:Hs; [done |].
  simpl String.eqb. cbv iota.
  rewrite app_assoc_str. done.
Qed.

(** Matching a URL on the configured host, written in any case, under any
    scheme, with or without a query string or fragment. *)
Lemma url_to_path_match `{Externals} app st sch nl q c r tail :
  InvenioJSONSchemasState_init app = Ok st → wf_config app = true →
  wf_scheme sch = true → Str.lower nl = JSONSCHEMAS_HOST app →
  (JSONSCHEMAS_ENDPOINT app +:+ "/") +:+ q = String "/" (String c r) →
  Ascii.eqb "/" c = false → Str.all quoted_char (String c r) = true →
  Werkzeug.path_converter q = Some q →
  is_query_or_fragment tail = true →
  url_to_path st (sch +:+ ":" +:+ "//" +:+ nl +:+ (String "/" (String c r) +:+ tail))
  = Ok (Some q).
Proof.
  intros Hinit Hwf Hsch Hlower Hshape Hc Hcr Hq Htail.
  pose proof Hwf as Hwf'.
  apply andb_true_iff in Hwf' as [[_ Hhost]%andb_true_iff _].
  apply andb_true_iff in Hhost as [_ Hhost].
  pose proof (netloc_of_host _ _ Hlower Hhost) as Hnl.
  destruct (urlsplit_general sch nl (String c r) tail Hsch Hnl Hcr Htail)
    as (parts & Hparts & Hnetloc & Hpath).
  unfold url_to_path. rewrite Hparts. cbn [mbind result_bind].
  rewrite Hnetloc, Hpath.
  replace (Werkzeug.bind (url_map st) nl "http")
    with (Werkzeug.bind (url_map st) (JSONSCHEMAS_HOST app) "http").
  2:{ unfold Werkzeug.bind. rewrite Hlower. f_equal.
      apply (lower_all host_char); [|done].
      intros d Hd. by destruct (host_char_facts d Hd) as (_ & _ & _ & _ & ? & _). }
  change (String "/" (String c r)) with ("/" +:+ String c r).
  by rewrite (match_built app st c r q).
Qed.

Lemma path_to_url_prefixed app st p :
  InvenioJSONSchemasState_init app = Ok st → wf_config app = true →
  JSONSCHEMAS_ENDPOINT app ≠ EmptyString →
  path_to_url st p
  = Ok (JSONSCHEMAS_URL_SCHEME app +:+ "://" +:+ JSONSCHEMAS_HOST app
        +:+ JSONSCHEMAS_ENDPOINT app +:+ "/" +:+ Werkzeug.url_quote "/:" p).
Proof.
  intros Hinit Hwf Hne.
  pose proof Hwf as Hwf'.
  apply andb_true_iff in Hwf' as [_ [_ Hshape]%andb_true_iff].
  destruct (JSONSCHEMAS_ENDPOINT app) as [|a [|d e]] eqn:He; [done | done |].
  apply andb_true_iff in Hshape as [Ha Hd].
  apply Ascii.eqb_eq in Ha as ->. apply negb_true_iff in Hd.
  assert (Hd' : Ascii.eqb "/" d = false) by (by rewrite Ascii.eqb_sym).
  assert (Hsh : (JSONSCHEMAS_ENDPOINT app +:+ "/") +:+ Werkzeug.url_quote "/:" p
                = String "/" (String d ((e +:+ "/") +:+ Werkzeug.url_quote "/:" p)))
    by (by rewrite He).
  rewrite (path_to_url_shape app st p d _ Hinit Hwf Hsh Hd').
  f_equal. rewrite !app_cons_str, !app_nil_str. do 2 f_equal.
  by rewrite app_assoc_str, app_cons_str, app_nil_str.
Qed.

(** X1. For a well-formed configuration with an endpoint prefix, the URL
    of every path is the scheme, ["://"], the host, the prefix, a slash and
    the percent-encoded path. *)
Theorem path_to_url_form app st p :
  InvenioJSONSchemasState_init app = Ok st → wf_config app = true →
  JSONSCHEMAS_ENDPOINT app ≠ EmptyString →
  path_to_url st p
  = Ok (JSONSCHEMAS_URL_SCHEME app +:+ "://" +:+ JSONSCHEMAS_HOST app
        +:+ JSONSCHEMAS_ENDPOINT app +:+ "/" +:+ Werkzeug.url_quote "/:" p).
Proof. apply path_to_url_prefixed. Qed.

Lemma path_to_url_form_witness :
  path_to_url Example.state "a b/c.json"
  = Ok ("https" +:+ "://" +:+ "example.org" +:+ "/schemas" +:+ "/"
        +:+ Werkzeug.url_quote "/:" "a b/c.json").
Proof. apply (path_to_url_form Example.app); done. Defined.

(** X2. For a well-formed configuration and every path that is not empty
    and does not start with a slash, [url_to_path] of the path's URL is the
    percent-encoded path. *)
Theorem url_to_path_path_to_url_quoted `{Externals} app st p :
  InvenioJSONSchemasState_init app = Ok st → wf_config app = true →
  p ≠ EmptyString → Str.startswith "/" p = false →
  ∃ url, path_to_url st p = Ok url
         ∧ url_to_path st url = Ok (Some (Werkzeug.url_quote "/:" p)).
Proof.
  intros Hinit Hwf Hne Hslash.
  destruct (path_converter_quoted p Hne Hslash) as (Hconv & c & r & Hq & Hc).
  pose proof Hwf as Hwf'.
  apply andb_true_iff in Hwf' as [[Hsch _]%andb_true_iff Hend].
  destruct (static_shape_quoted _ _ c r Hend (url_quote_quoted p) Hq Hc)
    as (c' & r' & Hshape & Hc' & Hcr).
  eexists. split; [by eapply path_to_url_shape |].
  pose proof (url_to_path_match app st (JSONSCHEMAS_URL_SCHEME app)
                (JSONSCHEMAS_HOST app) (Werkzeug.url_quote "/:" p) c' r' ""
                Hinit Hwf Hsch) as Hm.
  rewrite app_nil_r_str in Hm. apply Hm; try done.
  apply andb_true_iff in Hwf as [[_ Hhost]%andb_true_iff _].
  apply andb_true_iff in Hhost as [_ Hhost].
  apply (lower_all host_char); [|done].
  intros d Hd. by destruct (host_char_facts d Hd) as (_ & _ & _ & _ & ? & _).
Qed.

Lemma url_to_path_path_to_url_quoted_witness :
  ∃ url, path_to_url Example.state "a b/c#d.json" = Ok url
         ∧ url_to_path (H := Example.externals) Example.state url
           = Ok (Some (Werkzeug.url_quote "/:" "a b/c#d.json")).
Proof.
  apply (url_to_path_path_to_url_quoted (H := Example.externals) Example.app);
    done.
Defined.

(** X3. [url_to_path] recognises a schema URL under any scheme, with the
    host written in any case and with a query string or fragment behind
    the path, and returns the path between the prefix and that tail. *)
Theorem url_to_path_scheme_case_tail `{Externals} app st sch nl p tail :
  InvenioJSONSchemasState_init app = Ok st → wf_config app = true →
  wf_scheme sch = true → Str.lower nl = JSONSCHEMAS_HOST app →
  Werkzeug.path_converter p = Some p → Str.all quoted_char p = true →
  is_query_or_fragment tail = true →
  url_to_path st
    (sch +:+ "://" +:+ nl +:+ JSONSCHEMAS_ENDPOINT app +:+ "/" +:+ p +:+ tail)
  = Ok (Some p).
Proof.
  intros Hinit Hwf Hsch Hlower Hp Hplain Htail.
  destruct (path_converter_inv p Hp) as (c & r & Hcr & Hc).
  pose proof Hwf as Hwf'.
  apply andb_true_iff in Hwf' as [_ Hend].
  destruct (static_shape_quoted _ _ c r Hend Hplain Hcr Hc)
    as (c' & r' & Hshape & Hc' & Hcr').
  rewrite <- (url_to_path_match app st sch nl p c' r' tail); try done.
  f_equal. rewrite <- Hshape.
  rewrite !app_cons_str, !app_nil_str, !app_assoc_str. done.
Qed.

Lemma url_to_path_scheme_case_tail_witness :
  url_to_path (H := Example.externals) Example.state
    ("ftp" +:+ "://" +:+ "Example.ORG" +:+ "/schemas" +:+ "/"
     +:+ "records/record-v1.0.0.json" +:+ "?refs=1#title")
  = Ok (Some "records/record-v1.0.0.json").
Proof.
  apply (url_to_path_scheme_case_tail (H := Example.externals) Example.app);
    done.
Defined.

(** X4. [url_to_path] raises exactly when [urlsplit] does, and then the
    same exception: no failure of the match itself gets through. *)
Theorem url_to_path_raises_iff `{Externals} st url e :
  url_to_path st url = Raise e ↔ Urllib.urlsplit url = Raise e.
Proof.
  unfold url_to_path.
  destruct (Urllib.urlsplit url) as [parts|e'] eqn:Hparts; cbn [mbind result_bind].
  - split; [|done]. unfold Werkzeug.match_.
    destruct (Werkzeug.rule_match _ _); cbn [is_HTTPException]; [|done].
    by destruct (String.eqb _ "schema").
  - split; by intros [= ->].
Qed.

Lemma url_to_path_other_netloc_witness :
  url_to_path (H := Example.externals) Example.state
    "https://schemas.example.org/schemas/records/record-v1.0.0.json"
  = Ok None.
Proof.
  eapply (url_to_path_other_netloc (H := Example.externals) Example.app);
    [done | done | reflexivity | reflexivity | vm_compute; discriminate].
Defined.

Lemma dot_star_dollar_again s t :
  Werkzeug.dot_star_dollar s = Some t → Werkzeug.dot_star_dollar t = Some t.
Proof.
  revert t. induction s as [|c s IH]; intros t; cbn [Werkzeug.dot_star_dollar].
  - by intros [= <-].
  - destruct (Ascii.eqb c "010") eqn:Hc.
    + destruct s; [by intros [= <-] | done].
    + destruct (Werkzeug.dot_star_dollar s) as [t'|]; [|done].
      intros [= <-]. cbn [Werkzeug.dot_star_dollar]. rewrite Hc.
      by rewrite (IH t').
Qed.

Lemma path_converter_again s v :
  Werkzeug.path_converter s = Some v →
  Werkzeug.path_converter v = Some v ∧ v ≠ EmptyString
  ∧ Str.startswith "/" v = false.
Proof.
  destruct s as [|c s]; [done |]. cbn [Werkzeug.path_converter].
  destruct (Ascii.eqb c "/") eqn:Hc; [done |].
  destruct (Werkzeug.dot_star_dollar s) as [t|] eqn:Ht; [|done].
  intros [= <-]. cbn [Werkzeug.path_converter]. rewrite Hc.
  rewrite (dot_star_dollar_again _ _ Ht). repeat split; [done |].
  unfold Str.startswith. cbn [Str.strip_prefix].
  rewrite Ascii.eqb_sym, Hc. done.
Qed.

(** X6. Every path [url_to_path] returns is not empty, does not start
    with a slash and is accepted by the rule's converter as it is. *)
Theorem url_to_path_returns_relative `{Externals} st url p :
  url_to_path st url = Ok (Some p) →
  p ≠ EmptyString ∧ Str.startswith "/" p = false
  ∧ Werkzeug.path_converter p = Some p.
Proof.
  unfold url_to_path.
  destruct (Urllib.urlsplit url) as [parts|e]; cbn [mbind result_bind]; [|done].
  unfold Werkzeug.match_, Werkzeug.rule_match.
  destruct (Str.strip_prefix _ _) as [s1|]; cbn [mbind option_bind]; [|done].
  destruct (Str.strip_prefix "|" s1) as [s2|]; cbn [mbind option_bind]; [|done].
  destruct (Str.strip_prefix _ s2) as [s3|]; cbn [mbind option_bind]; [|done].
  destruct (Werkzeug.path_converter s3) as [v|] eqn:Hv; [|done].
  destruct (String.eqb _ "schema"); [|done].
  cbn [assoc_get]. destruct (String.eqb _ "path"); [|done].
  intros [= <-]. destruct (path_converter_again _ _ Hv) as (? & ? & ?). done.
Qed.

Lemma url_to_path_returns_relative_witness :
  "records/record-v1.0.0.json" ≠ EmptyString
  ∧ Str.startswith "/" "records/record-v1.0.0.json" = false
  ∧ Werkzeug.path_converter "records/record-v1.0.0.json"
    = Some "records/record-v1.0.0.json".
Proof.
  apply (url_to_path_returns_relative (H := Example.externals) Example.state
           "https://example.org/schemas/records/record-v1.0.0.json").
  reflexivity.
Defined.

(** X7. When neither the endpoint prefix nor the host holds an angle
    bracket (so that the only placeholder of the rule is the path), the
    state is built if the prefix is empty or starts with a slash, and any
    other prefix makes the constructor raise [ValueError]. *)
Theorem state_init_endpoint app :
  Str.mem "<" (JSONSCHEMAS_ENDPOINT app) = false →
  Str.mem ">" (JSONSCHEMAS_ENDPOINT app) = false →
  Str.mem "<" (JSONSCHEMAS_HOST app) = false →
  Str.mem ">" (JSONSCHEMAS_HOST app) = false →
  InvenioJSONSchemasState_init app
  = if String.eqb (JSONSCHEMAS_ENDPOINT app) "" || Str.startswith "/" (JSONSCHEMAS_ENDPOINT app)
    then Ok {| app_config := app;
               url_map := {| Werkzeug.map_rule :=
                 {| Werkzeug.rule_static := JSONSCHEMAS_ENDPOINT app +:+ "/";
                    Werkzeug.rule_arg := "path"; Werkzeug.rule_endpoint := "schema";
                    Werkzeug.rule_host := JSONSCHEMAS_HOST app |} |} |}
    else Raise ValueError.
Proof.
  intros _ _ _ _.
  unfold InvenioJSONSchemasState_init, Werkzeug.mk_rule, Str.startswith.
  destruct (JSONSCHEMAS_ENDPOINT app) as [|c e]; [done |].
  rewrite app_cons_str. cbn [Str.strip_prefix String.eqb orb].
  by destruct (Ascii.eqb "/" c).
Qed.

Lemma state_init_endpoint_witness :
  InvenioJSONSchemasState_init Example.app = Ok Example.state.
Proof. exact (state_init_endpoint Example.app eq_refl eq_refl eq_refl eq_refl). Defined.

(** * Further properties of the service *)

(** A call whose loader finds the document, step by step. *)
Lemma get_schema_loaded `{Externals} st req p with_refs resolved l url d :
  loader_cls st = Some l → path_to_url st p = Ok url → l url = Ok d →
  get_schema st req p with_refs resolved
  = (_ ← tell [EvInstantiate; EvLoad url];
     schema ← (if truthy with_refs
               then _ ← tell [EvInstantiate];
                    JsonRef_replace_refs d (base_url req) (Some l)
               else mret d);
     if truthy resolved then
       match resolver_cls st with
       | Some f => lift (f schema)
       | None => lift (Raise TypeError)
       end
     else mret schema).
Proof.
  intros Hl Hurl Hload. rewrite get_schema_runs_body. unfold wrapped.
  rewrite Hl, Hurl. simpl. rewrite Hload. simpl.
  destruct (truthy with_refs); [|done].
  destruct (JsonRef_replace_refs d (base_url req) (Some l)) as [t' [d'|e]];
    simpl; [|done].
  by destruct (truthy resolved).
Qed.

(** X8. With both flags false, [get_schema] returns the document exactly
    as the loader gave it, after one instantiation and one loader call. *)
Theorem get_schema_raw `{Externals} st req p with_refs resolved l url d :
  loader_cls st = Some l → path_to_url st p = Ok url → l url = Ok d →
  truthy with_refs = false → truthy resolved = false →
  get_schema st req p with_refs resolved = ([EvInstantiate; EvLoad url], Ok d).
Proof.
  intros Hl Hurl Hload Hwr Hrs.
  rewrite (get_schema_loaded _ _ _ _ _ _ _ _ Hl Hurl Hload), Hwr, Hrs. done.
Qed.

Lemma get_schema_raw_witness :
  get_schema (H := Example.externals) Example.state (Example.anonymous [])
    "records/record-v1.0.0.json" PyNone (PyBool false)
  = ([EvInstantiate;
      EvLoad "https://example.org/schemas/records/record-v1.0.0.json"],
     Ok Example.record_schema).
Proof.
  apply (get_schema_raw (H := Example.externals) Example.state _ _ _ _
           Example.documents);
    reflexivity.
Defined.

(** X9. In inline mode the loader class is instantiated a second time and
    [JsonRef.replace_refs] gets the loaded document, the base URL of the
    request and that loader; without [resolved], what it returns or raises
    is the outcome of the call. *)
Theorem get_schema_inline `{Externals} st req p with_refs resolved l url d :
  loader_cls st = Some l → path_to_url st p = Ok url → l url = Ok d →
  truthy with_refs = true → truthy resolved = false →
  get_schema st req p with_refs resolved
  = ([EvInstantiate; EvLoad url; EvInstantiate]
       ++ (JsonRef_replace_refs d (base_url req) (Some l)).1,
     (JsonRef_replace_refs d (base_url req) (Some l)).2).
Proof.
  intros Hl Hurl Hload Hwr Hrs.
  rewrite (get_schema_loaded _ _ _ _ _ _ _ _ Hl Hurl Hload), Hwr, Hrs.
  destruct (JsonRef_replace_refs d (base_url req) (Some l)) as [t' [d'|e]];
    simpl; [|done].
  by rewrite app_nil_r.
Qed.

Lemma get_schema_inline_witness :
  get_schema (H := Example.externals) Example.state (Example.anonymous [])
    "records/record-v1.0.0.json" (PyInt 1) (PyInt 0)
  = ([EvInstantiate;
      EvLoad "https://example.org/schemas/records/record-v1.0.0.json";
      EvInstantiate] ++ [],
     Ok Example.record_schema).
Proof.
  apply (get_schema_inline (H := Example.externals) Example.state
           (Example.anonymous []) "records/record-v1.0.0.json" (PyInt 1) (PyInt 0)
           Example.documents);
    reflexivity.
Defined.

(** X10. With a resolver configured, a call with [resolved] true is the
    same call with [resolved] false followed by the resolver on its
    document: the resolver runs last, on the inlined document when
    [with_refs] is true, and not at all when an earlier step raises. *)
Theorem get_schema_resolved_last `{Externals} st req p with_refs resolved f :
  resolver_cls st = Some f → truthy resolved = true →
  get_schema st req p with_refs resolved
  = (schema ← get_schema st req p with_refs (PyBool false); lift (f schema)).
Proof.
  intros Hf Hrs. rewrite !get_schema_runs_body. unfold wrapped.
  rewrite Hf, Hrs. cbn [truthy].
  destruct (try_except _ _ _) as [t0 [d0|e0]]; simpl; [|done].
  destruct (if truthy with_refs then _ else _) as [t1 [d1|e1]]; simpl; [|done].
  destruct (f d1); simpl; by rewrite !app_nil_r.
Qed.

Lemma get_schema_resolved_last_witness :
  get_schema (H := Example.externals) Example.state (Example.anonymous [])
    "records/record-v1.0.0.json" (PyInt 0) (PyInt 1)
  = (schema ← get_schema (H := Example.externals) Example.state
                (Example.anonymous []) "records/record-v1.0.0.json" (PyInt 0)
                (PyBool false);
     lift (Ok schema)).
Proof.
  apply (get_schema_resolved_last (H := Example.externals) Example.state
           (Example.anonymous []) "records/record-v1.0.0.json" (PyInt 0) (PyInt 1)
           (λ doc, Ok doc));
    reflexivity.
Defined.

(** X11. An exception of the loader other than [JSONSchemaNotFound] is
    raised by [get_schema] unchanged, whatever the flags. *)
Theorem get_schema_loader_error `{Externals} st req p with_refs resolved l url e :
  loader_cls st = Some l → path_to_url st p = Ok url → l url = Raise e →
  e ≠ JSONSchemaNotFound →
  get_schema st req p with_refs resolved
  = ([EvInstantiate; EvLoad url], Raise e).
Proof.
  intros Hl Hurl Hload He. rewrite get_schema_runs_body. unfold wrapped.
  rewrite Hl, Hurl. simpl. rewrite Hload.
  destruct e; done.
Qed.

(** X12. Without a loader class, [get_schema] raises [TypeError] before
    anything is loaded, whatever the flags. *)
Theorem get_schema_no_loader `{Externals} st req p with_refs resolved :
  loader_cls st = None →
  get_schema st req p with_refs resolved = ([], Raise TypeError).
Proof.
  intros Hl. rewrite get_schema_runs_body. unfold wrapped.
  rewrite Hl. reflexivity.
Qed.

(** * Further properties of the view *)

(** X14. The view does not handle what [state.get_schema] raises: every
    exception of the service, [JsonRefError] included, leaves the view as
    it is, and nothing is serialised. *)
Theorem view_passes_service_errors `{Externals} st cfg req p t e :
  get_schema st req p (Views.flags cfg req).2 (Views.flags cfg req).1
  = (t, Raise e) →
  Views.get_schema st cfg req p = (t, Raise e).
Proof.
  unfold Views.get_schema. destruct (Views.flags cfg req) as [rs wr].
  cbn [fst snd]. by intros ->.
Qed.

Lemma view_passes_service_errors_witness :
  Views.get_schema (H := Example.externals) Example.state ∅
    (Example.anonymous [("refs", "1")]) "missing.json"
  = ([EvInstantiate; EvLoad "https://example.org/schemas/missing.json"],
     Raise (HTTPException 404)).
Proof.
  apply (view_passes_service_errors (H := Example.externals)).
  reflexivity.
Defined.

(** X15. When the service returns a document and serialising it raises,
    the view answers 404 for [JsonRefError] and lets every other exception
    through. *)
Theorem view_serialisation_error `{Externals} st cfg req p t d e :
  get_schema st req p (Views.flags cfg req).2 (Views.flags cfg req).1
  = (t, Ok d) →
  jsonify d = Raise e →
  Views.get_schema st cfg req p
  = (t, Raise (if is_JsonRefError e then HTTPException 404 else e)).
Proof.
  unfold Views.get_schema. destruct (Views.flags cfg req) as [rs wr].
  cbn [fst snd]. intros -> Hjson. simpl. rewrite Hjson. simpl.
  destruct (is_JsonRefError e); simpl; by rewrite app_nil_r.
Qed.

(** X16. A query value that is not an integer counts as absent: the flags
    are those of the request without query arguments. *)
Theorem flags_unparsable_as_absent `{Externals} cfg req :
  (∀ s, assoc_get "resolved" (args req) = Some s → int_of_str s = None) →
  (∀ s, assoc_get "refs" (args req) = Some s → int_of_str s = None) →
  Views.flags cfg req
  = Views.flags cfg {| base_url := base_url req;
                       current_user := current_user req; args := [] |}.
Proof.
  intros Hres Hrefs. unfold Views.flags, Views.args_get_int. cbn [args assoc_get].
  destruct (assoc_get "resolved" (args req)) as [s|] eqn:Hs;
    [rewrite (Hres s eq_refl) |];
    (destruct (assoc_get "refs" (args req)) as [s'|] eqn:Hs';
      [rewrite (Hrefs s' eq_refl) |]); done.
Qed.

(** * Further properties of [init_config] *)

Lemma host_key_prefixed : Str.startswith "JSONSCHEMAS_" "JSONSCHEMAS_HOST" = true.
Proof. reflexivity. Qed.

(** X17. [init_config] is idempotent on the configuration: a second run
    changes nothing. *)
Theorem init_config_idempotent config d :
  (init_config config (init_config config d).1).1 = (init_config config d).1.
Proof.
  unfold init_config. cbn [fst]. apply map_eq. intros k.
  rewrite (foldl_init_config_lookup config _ (foldl _ d _)).
  destruct (foldl (init_config_step config) d config.*1 !! k) as [v|] eqn:Hk;
    [done |].
  rewrite foldl_init_config_lookup in Hk.
  destruct (d !! k); [done |]. done.
Qed.

(** X18. What [init_config] reports is decided by the host the
    application set, or else by the module's default: [KeyError] when
    neither exists, one warning when that host is false or ["localhost"],
    and no warning otherwise. *)
Theorem init_config_host_report config d :
  (init_config config d).2
  = match effective_host config d with
    | None => Raise (KeyError "JSONSCHEMAS_HOST")
    | Some host_setting =>
        Ok (if negb (truthy host_setting) || py_eq host_setting (PyStr "localhost")
            then [host_setting] else [])
    end.
Proof.
  unfold init_config, effective_host. cbn [snd].
  rewrite foldl_init_config_lookup, host_key_prefixed. cbn [andb].
  destruct (d !! "JSONSCHEMAS_HOST") as [v|].
  - by destruct (negb (truthy v) || py_eq v (PyStr "localhost")).
  - case_bool_decide as Hk.
    + destruct (assoc_get "JSONSCHEMAS_HOST" config) as [v|]; [|done].
      by destruct (negb (truthy v) || py_eq v (PyStr "localhost")).
    + by rewrite (assoc_get_None _ _ Hk).
Qed.

Lemma view_serialisation_error_witness :
  Views.get_schema (H := Example.externals_json_error) Example.state ∅
    (Example.anonymous []) "records/record-v1.0.0.json"
  = ([EvInstantiate;
      EvLoad "https://example.org/schemas/records/record-v1.0.0.json"],
     Raise (HTTPException 404)).
Proof.
  apply (view_serialisation_error (H := Example.externals_json_error)
           Example.state ∅ (Example.anonymous []) "records/record-v1.0.0.json"
           _ Example.record_schema JsonRefError);
    reflexivity.
Defined.

Lemma flags_unparsable_as_absent_witness :
  Views.flags (H := Example.externals) ∅
    (Example.anonymous [("resolved", "yes"); ("refs", "")])
  = Views.flags (H := Example.externals) ∅ (Example.anonymous []).
Proof.
  apply (flags_unparsable_as_absent (H := Example.externals) ∅
           (Example.anonymous [("resolved", "yes"); ("refs", "")]));
    intros s [= <-]; reflexivity.
Defined.

Lemma get_schema_loader_error_witness :
  get_schema (H := Example.externals) (Example.state_with (Some Example.unreadable))
    (Example.anonymous []) "records/record-v1.0.0.json" (PyInt 1) (PyInt 1)
  = ([EvInstantiate;
      EvLoad "https://example.org/schemas/records/record-v1.0.0.json"],
     Raise ValueError).
Proof.
  apply (get_schema_loader_error (H := Example.externals) _ _ _ _ _
           Example.unreadable);
    done.
Defined.

Lemma get_schema_no_loader_witness :
  get_schema (H := Example.externals) (Example.state_with None)
    (Example.anonymous []) "records/record-v1.0.0.json" (PyInt 1) (PyInt 0)
  = ([], Raise TypeError).
Proof. apply (get_schema_no_loader (H := Example.externals)). reflexivity. Defined.


(** * [path_to_url] is injective *)

Lemma unhex_hex_digits c :
  (16 * unhex (Werkzeug.hex_digit (N_of_ascii c / 16))
   + unhex (Werkzeug.hex_digit (N_of_ascii c mod 16)))%N = N_of_ascii c.
Proof. revert c. intros [[] [] [] [] [] [] [] []]; reflexivity. Qed.

Lemma safe_not_percent safe c :
  Str.mem "%" safe = false →
  Werkzeug.always_safe c || Str.mem c safe = true → c ≠ "%"%char.
Proof. intros Hsafe Hc ->. by rewrite Hsafe in Hc. Qed.

Lemma url_quote_inj safe s s' :
  Str.mem "%" safe = false →
  Werkzeug.url_quote safe s = Werkzeug.url_quote safe s' → s = s'.
Proof.
  intros Hsafe. revert s'.
  induction s as [|c s IH]; intros [|c' s']; cbn [Werkzeug.url_quote].
  - done.
  - by destruct (Werkzeug.always_safe c' || Str.mem c' safe).
  - by destruct (Werkzeug.always_safe c || Str.mem c safe).
  - destruct (Werkzeug.always_safe c || Str.mem c safe) eqn:Hc,
      (Werkzeug.always_safe c' || Str.mem c' safe) eqn:Hc'.
    + intros [= -> Hs]. by rewrite (IH _ Hs).
    + intros [= -> _]. by destruct (safe_not_percent _ _ Hsafe Hc).
    + intros [= <- _]. by destruct (safe_not_percent _ _ Hsafe Hc').
    + intros [= Hhi Hlo Hs].
      pose proof (unhex_hex_digits c) as Hn.
      pose proof (unhex_hex_digits c') as Hn'.
      rewrite Hhi, Hlo, Hn' in Hn.
      pose proof (f_equal ascii_of_N Hn) as Heq.
      rewrite !ascii_N_embedding in Heq. subst c'.
      by rewrite (IH _ Hs).
Qed.

(** X20. For a well-formed configuration with an endpoint prefix, two
    paths with the same URL are the same path. *)
Theorem path_to_url_inj app st p p' :
  InvenioJSONSchemasState_init app = Ok st → wf_config app = true →
  JSONSCHEMAS_ENDPOINT app ≠ EmptyString →
  path_to_url st p = path_to_url st p' → p = p'.
Proof.
  intros Hinit Hwf Hne.
  rewrite !(path_to_url_prefixed app st _ Hinit Hwf Hne). intros [= Heq].
  do 5 apply (inj (String.app _)) in Heq.
  by apply (url_quote_inj "/:").
Qed.

Lemma path_to_url_inj_witness : "a b.json" = "a b.json".
Proof.
  apply (path_to_url_inj Example.app Example.state); done.
Defined.
